(** * SmartExpenseTracker: the [ExpenseDB] persistence layer

    A shallow embedding of the class [ExpenseDB] of [SmartExpenseTracker.py]
    together with the part of the SQL engine its statements rely on, and
    the properties of the store that follow from it.

    Modelling decisions.
    - The table [expenses] is the list of its rows in rowid order, together
      with the AUTOINCREMENT counter the engine keeps for it.
    - TEXT values are [string]s, one [ascii] per character; a nullable TEXT
      column is an [option string] ([None] is NULL).  REAL amounts are exact
      rationals: they range over the finite numbers, and the rounding of
      floating-point addition is outside the model.
    - A method of the class is a function from the store to an outcome and the
      store it leaves behind ([commit] makes every statement durable at once,
      so the store after a method is the committed one).
    - Resource limits of the engine other than the exhaustion of rowids
      (statement length, pattern length, disk space) are not modelled.
    - The handlers of the windows are functions of the texts that stand in
      their fields and of the answers of the dialogs; what they draw on the
      screen is kept as far as it is data (the lines of the list, the
      totals).  Python's [strip], [replace], [split], [str], the format
      [.2f] and [strptime] with the format [%Y-%m-%d] are written out for
      characters up to 255; [float] and pandas are parameters. *)

From Stdlib Require Import ZArith QArith Ascii String DecimalString.
From stdpp Require Import base decidable option list sorting strings gmap.

Close Scope Q_scope.
Local Open Scope Z_scope.

(** ** The SQL engine *)

Module Sql.

(** *** Three-valued logic: [None] is NULL. *)

Definition tri := option bool.

Definition tri_or (a b : tri) : tri :=
  match a, b with
  | Some true, _ | _, Some true => Some true
  | Some false, Some false => Some false
  | _, _ => None
  end.

Definition tri_and (a b : tri) : tri :=
  match a, b with
  | Some false, _ | _, Some false => Some false
  | Some true, Some true => Some true
  | _, _ => None
  end.

(** A WHERE clause keeps the rows on which it evaluates to true; rows on
    which it is false or NULL are dropped. *)
Definition where_keeps (t : tri) : bool :=
  match t with Some true => true | _ => false end.

(** *** Comparison of TEXT values (collation BINARY). *)

Definition text_le (a b : string) : bool := String.leb a b.
Definition text_lt (a b : string) : bool := negb (String.leb b a).

(** [x >= y], [x <= y] and [x < y] on TEXT operands that are not NULL. *)
Definition ge (x y : string) : tri := Some (text_le y x).
Definition le (x y : string) : tri := Some (text_le x y).
Definition lt (x y : string) : tri := Some (text_lt x y).

(** *** The LIKE operator. *)

(** LIKE folds the case of the 26 ASCII letters only. *)
Definition sqlite3Tolower (c : ascii) : ascii :=
  let n := N_of_ascii c in
  if ((65 <=? n) && (n <=? 90))%N then ascii_of_N (n + 32) else c.

Definition matchAll : ascii := "%"%char.
Definition matchOne : ascii := "_"%char.

(** LIKE reads its two operands as C strings: the character NUL ends the
    pattern and ends the text, whatever comes after it. *)
Definition nul : ascii := "000"%char.

Definition at_end (str : string) : bool :=
  match str with
  | EmptyString => true
  | String c _ => Ascii.eqb c nul
  end.

(** [patternCompare pattern str]: [%] stands for any run of characters,
    [_] for exactly one character, any other character for itself up to
    the case of ASCII letters; the pattern and the text stop at their first
    NUL. *)
Fixpoint patternCompare (pattern str : string) : bool :=
  match pattern with
  | EmptyString => at_end str
  | String c pattern' =>
      if Ascii.eqb c nul then at_end str
      else if Ascii.eqb c matchAll then
        (fix skip (str : string) : bool :=
           patternCompare pattern' str
           || match str with
              | EmptyString => false
              | String c2 str' => negb (Ascii.eqb c2 nul) && skip str'
              end) str
      else
        match str with
        | EmptyString => false
        | String c2 str' =>
            negb (Ascii.eqb c2 nul)
            && ((Ascii.eqb c matchOne
                 || Ascii.eqb (sqlite3Tolower c) (sqlite3Tolower c2))
                && patternCompare pattern' str')
        end
  end.

(** [x LIKE pattern]; NULL as soon as one operand is NULL. *)
Definition like (x pattern : option string) : tri :=
  match x, pattern with
  | Some str, Some p => Some (patternCompare p str)
  | _, _ => None
  end.

(** The largest rowid a table can hold. *)
Definition MAX_ROWID : Z := 2 ^ 63 - 1.

End Sql.

(** ** The part of Python the methods use *)

Module Py.

(** Truth value of an optional string argument in [if x:]: [None] and the
    empty string are false. *)
Definition truthy (x : option string) : bool :=
  match x with
  | None => false
  | Some s => negb (String.eqb s "")
  end.

Definition zeros (n : nat) : string :=
  string_of_list_ascii (replicate n "0"%char).

(** [format(z, "0<width>d")]: the decimal digits of [z], filled with zeros
    on the left up to [width] characters, the sign (if any) first. *)
Definition format_0d (width : nat) (z : Z) : string :=
  let digits := NilZero.string_of_uint (N.to_uint (Z.abs_N z)) in
  if z <? 0
  then "-" +:+ zeros (width - 1 - String.length digits) +:+ digits
  else zeros (width - String.length digits) +:+ digits.

(** [dict(pairs)]: later pairs override earlier ones with the same key. *)
Definition dict {V} (pairs : list (string * V)) : gmap string V :=
  foldl (λ m kv, <[kv.1 := kv.2]> m) ∅ pairs.

(** An int that is given for a parameter of a statement has to fit in 64
    bits with its sign: [execute] raises [OverflowError] for any other. *)
Definition int64 (z : Z) : bool := (- 2 ^ 63 <=? z) && (z <=? 2 ^ 63 - 1).

End Py.

(** ** The store *)

(** A row of the table [expenses]. *)
Record Expense := mkExpense {
  id : Z;
  amount : Q;
  category : string;
  date : string;
  note : option string
}.

Global Instance Q_eq_dec : EqDecision Q.
Proof. solve_decision. Defined.

Global Instance Expense_eq_dec : EqDecision Expense.
Proof. solve_decision. Defined.

(** The database behind [self.conn]: the rows of [expenses] in rowid order and
    the largest rowid the table has ever held ([sqlite_sequence]). *)
Record ExpenseDB := mkDB {
  rows : list Expense;
  seq : Z
}.

Inductive error := SQLITE_FULL | OverflowError.

Inductive result (A : Type) :=
| Ok (a : A)
| Raise (e : error).
Global Arguments Ok {A} a.
Global Arguments Raise {A} e.

(** A method of [ExpenseDB]: what it returns or raises, and the store after. *)
Definition method (A : Type) := ExpenseDB → result A * ExpenseDB.

(** [CREATE TABLE IF NOT EXISTS]: a database file that has no table yet gets
    an empty one, an existing table is left as it is. *)
Definition create_table (file : option ExpenseDB) : ExpenseDB :=
  match file with
  | None => {| rows := []; seq := 0 |}
  | Some db => db
  end.

Definition max_rowid (rs : list Expense) : Z := foldr Z.max 0 (id <$> rs).

(** [INSERT INTO expenses (amount, category, date, note)]: the AUTOINCREMENT
    key is one more than the largest rowid the table has ever held; when that
    is the largest possible rowid the insert fails.  Returns [cur.lastrowid]. *)
Definition largest_rowid_ever (db : ExpenseDB) : Z :=
  Z.max (seq db) (max_rowid (rows db)).

Definition add_expense (amount : Q) (category date_str : string)
    (note : option string) : method Z := λ db,
  if decide (largest_rowid_ever db = Sql.MAX_ROWID) then (Raise SQLITE_FULL, db)
  else
    let lastrowid := largest_rowid_ever db + 1 in
    (Ok lastrowid,
     {| rows := rows db ++ [mkExpense lastrowid amount category date_str note];
        seq := lastrowid |}).

(** [UPDATE expenses SET amount, category, date, note WHERE id = ?]; the
    statement is not run when the id cannot be given to it. *)
Definition update_expense (expense_id : Z) (amount : Q)
    (category date_str : string) (note : option string) : method unit := λ db,
  if Py.int64 expense_id then
    (Ok (),
     {| rows := (λ r, if decide (id r = expense_id)
                      then mkExpense (id r) amount category date_str note
                      else r) <$> rows db;
        seq := seq db |})
  else (Raise OverflowError, db).

(** [DELETE FROM expenses WHERE id = ?]; the statement is not run when the id
    cannot be given to it. *)
Definition delete_expense (expense_id : Z) : method unit := λ db,
  if Py.int64 expense_id then
    (Ok (),
     {| rows := filter (λ r, id r ≠ expense_id) (rows db); seq := seq db |})
  else (Raise OverflowError, db).

(** [ORDER BY date DESC, id DESC]. *)
Definition date_desc_id_desc (r1 r2 : Expense) : Prop :=
  strict String.le (date r2) (date r1) ∨ (date r1 = date r2 ∧ id r2 ≤ id r1).

Global Instance date_desc_id_desc_dec : RelDecision date_desc_id_desc.
Proof. intros r1 r2. unfold date_desc_id_desc, strict. apply _. Defined.

Definition order_by_date_desc_id_desc : list Expense → list Expense :=
  merge_sort date_desc_id_desc.

(** The conjunction of the clauses of a WHERE, joined by AND. *)
Definition and_join (clauses : list (Expense → Sql.tri)) (r : Expense) : Sql.tri :=
  match clauses with
  | [] => Some true
  | c :: cs => foldl (λ t c', Sql.tri_and t (c' r)) (c r) cs
  end.

(** The three clauses [fetch_expenses] may put in its WHERE. *)
Definition search_clause (p : string) (r : Expense) : Sql.tri :=
  Sql.tri_or (Sql.like (Some (category r)) (Some p)) (Sql.like (note r) (Some p)).
Definition start_clause (d : string) (r : Expense) : Sql.tri := Sql.ge (date r) d.
Definition end_clause (d : string) (r : Expense) : Sql.tri := Sql.le (date r) d.

Definition fetch_expenses (search start_date end_date : option string)
    : method (list Expense) := λ db,
  let clauses := [] in
  let clauses :=
    match search with
    | Some s => if Py.truthy search
                then clauses ++ [search_clause ("%" +:+ s +:+ "%")] else clauses
    | None => clauses
    end in
  let clauses :=
    match start_date with
    | Some d => if Py.truthy start_date
                then clauses ++ [start_clause d] else clauses
    | None => clauses
    end in
  let clauses :=
    match end_date with
    | Some d => if Py.truthy end_date
                then clauses ++ [end_clause d] else clauses
    | None => clauses
    end in
  let selected :=
    match clauses with
    | [] => rows db
    | _ :: _ => filter (λ r, Sql.where_keeps (and_join clauses r) = true) (rows db)
    end in
  (Ok (order_by_date_desc_id_desc selected), db).

(** [SUM(amount) ... GROUP BY category]: every scanned row is added to the
    accumulator of its group, which starts at zero when the group is met. *)
Fixpoint add_to_group (c : string) (a : Q) (groups : list (string * Q))
    : list (string * Q) :=
  match groups with
  | [] => [(c, Qplus 0 a)]
  | (c', total) :: groups' =>
      if decide (c' = c) then (c', Qplus total a) :: groups'
      else (c', total) :: add_to_group c a groups'
  end.

Definition sum_group_by_category (rs : list Expense) : list (string * Q) :=
  foldl (λ groups r, add_to_group (category r) (amount r) groups) [] rs.

Definition monthly_summary (year month : Z) : method (gmap string Q) := λ db,
  let start := Py.format_0d 4 year +:+ "-" +:+ Py.format_0d 2 month +:+ "-01" in
  let end_ :=
    if month =? 12
    then Py.format_0d 4 (year + 1) +:+ "-01-01"
    else Py.format_0d 4 year +:+ "-" +:+ Py.format_0d 2 (month + 1) +:+ "-01" in
  let selected :=
    filter (λ r, Sql.where_keeps
                   (Sql.tri_and (Sql.ge (date r) start) (Sql.lt (date r) end_))
                 = true) (rows db) in
  (Ok (Py.dict (sum_group_by_category selected)), db).

(** ** A lifetime of the store, as the sequence of calls made on it *)

Inductive call :=
| Create (amount : Q) (category date_str : string) (note : option string)
| Update (expense_id : Z) (amount : Q) (category date_str : string)
         (note : option string)
| Delete (expense_id : Z)
| List_ (search start_date end_date : option string)
| MonthlySummary (year month : Z).

(** The id a call assigns (a successful create, nothing otherwise) and the
    store after the call. *)
Definition step (c : call) (db : ExpenseDB) : option Z * ExpenseDB :=
  match c with
  | Create a cat d n =>
      match add_expense a cat d n db with
      | (Ok i, db') => (Some i, db')
      | (Raise _, db') => (None, db')
      end
  | Update i a cat d n => (None, (update_expense i a cat d n db).2)
  | Delete i => (None, (delete_expense i db).2)
  | List_ s sd ed => (None, (fetch_expenses s sd ed db).2)
  | MonthlySummary y m => (None, (monthly_summary y m db).2)
  end.

(** The ids assigned by a sequence of calls, oldest first, and the final store. *)
Fixpoint run (cs : list call) (db : ExpenseDB) : list Z * ExpenseDB :=
  match cs with
  | [] => ([], db)
  | c :: cs' =>
      let '(i, db') := step c db in
      let '(ids, db'') := run cs' db' in
      (option_list i ++ ids, db'')
  end.

(** ** The vocabulary of the properties *)

(** *** What a listing selects *)

(** [supplied x P]: the filter [P] applies when the argument [x] is given and
    is not the empty string. *)
Definition supplied (x : option string) (P : string → Prop) : Prop :=
  match x with
  | Some s => if decide (s = "") then True else P s
  | None => True
  end.

Global Instance supplied_dec x P `{∀ s, Decision (P s)} : Decision (supplied x P).
Proof.
  destruct x as [s|]; simpl; [| apply _].
  destruct (decide (s = "")); apply _.
Defined.

(** The search filter of the listing: the row is kept by
    [category LIKE '%s%' OR note LIKE '%s%']. *)
Definition matches_search (s : string) (r : Expense) : Prop :=
  Sql.where_keeps (search_clause ("%" +:+ s +:+ "%") r) = true.

Global Instance matches_search_dec s r : Decision (matches_search s r).
Proof. unfold matches_search. apply _. Defined.

Definition selects (search start_date end_date : option string) (r : Expense) : Prop :=
  supplied search (λ s, matches_search s r)
  ∧ supplied start_date (λ d, String.le d (date r))
  ∧ supplied end_date (λ d, String.le (date r) d).

Global Instance selects_dec search start_date end_date r :
  Decision (selects search start_date end_date r).
Proof. unfold selects. apply _. Defined.

(** An argument given as the empty string, taken as left out. *)
Definition omit_empty (x : option string) : option string :=
  match x with
  | Some EmptyString => None
  | _ => x
  end.

(** The calls that read: listings and monthly summaries. *)
Definition is_read (c : call) : bool :=
  match c with
  | List_ _ _ _ | MonthlySummary _ _ => true
  | Create _ _ _ _ | Update _ _ _ _ _ | Delete _ => false
  end.

(** *** Keys *)

(** The state of a table with an AUTOINCREMENT key: no two rows share a key
    and no key is above the counter. *)
Definition consistent (db : ExpenseDB) : Prop :=
  NoDup (id <$> rows db) ∧ Forall (λ r, id r ≤ seq db) (rows db).

Global Instance consistent_dec db : Decision (consistent db).
Proof. unfold consistent. apply _. Defined.

(** *** Searching *)

(** The text [s] with its ASCII letters in lower case. *)
Fixpoint fold_case (s : string) : string :=
  match s with
  | EmptyString => EmptyString
  | String c s' => String (Sql.sqlite3Tolower c) (fold_case s')
  end.





(** [s] has the character NUL. *)
Fixpoint has_nul (s : string) : bool :=
  match s with
  | EmptyString => false
  | String c s' => Ascii.eqb c Sql.nul || has_nul s'
  end.

(** The text as LIKE reads it: up to its first NUL, all of it when it has
    none. *)
Fixpoint upto_nul (s : string) : string :=
  match s with
  | EmptyString => EmptyString
  | String c s' => if Ascii.eqb c Sql.nul then EmptyString
                   else String c (upto_nul s')
  end.

(** *** The monthly summary *)

(** The first day of a month as an ISO date. *)
Definition first_of_month (year month : Z) : string :=
  Py.format_0d 4 year +:+ "-" +:+ Py.format_0d 2 month +:+ "-01".

(** The month as a half-open interval of dates: from its first day up to, and
    not including, the first day of the next month, which for December is the
    first of January of the next year. *)
Definition month_start (year month : Z) : string := first_of_month year month.
Definition month_end (year month : Z) : string :=
  if decide (month = 12) then first_of_month (year + 1) 1
  else first_of_month year (month + 1).

Definition in_month (year month : Z) (r : Expense) : Prop :=
  String.le (month_start year month) (date r)
  ∧ strict String.le (date r) (month_end year month).

Global Instance in_month_dec year month r : Decision (in_month year month r).
Proof. unfold in_month, strict. apply _. Defined.

Definition sum_amounts (l : list Q) : Q := foldl Qplus 0%Q l.

(** The total of the records of category [c] among [rs], if there is one. *)
Definition category_total (c : string) (rs : list Expense) : option Q :=
  match filter (λ r, category r = c) rs with
  | [] => None
  | g => Some (sum_amounts (amount <$> g))
  end.

Fixpoint lookup_group (c : string) (groups : list (string * Q)) : option Q :=
  match groups with
  | [] => None
  | (c', total) :: groups' =>
      if decide (c' = c) then Some total else lookup_group c groups'
  end.

(** An ISO date, [YYYY-MM-DD]. *)
Definition iso_date (y m d : Z) : string :=
  Py.format_0d 4 y +:+ "-" +:+ Py.format_0d 2 m +:+ "-" +:+ Py.format_0d 2 d.

(** The numbers from 0 to [n] all take [w] characters when they are formatted
    with width [w], and each is below its successor as a string. *)
Definition fixed_width_upto (w : nat) (n : Z) : bool :=
  forallb (λ a, Nat.eqb (String.length (Py.format_0d w a)) w
                && Nat.eqb (String.length (Py.format_0d w (a + 1))) w
                && Sql.text_lt (Py.format_0d w a) (Py.format_0d w (a + 1)))
          (seqZ 0 n).

(** A date written with a one-digit month, as in [2024-9-5]. *)
Definition unpadded_date (year m : Z) (rest : string) : string :=
  Py.format_0d 4 year +:+ "-" +:+ Py.format_0d 1 m +:+ "-" +:+ rest.

(** ** The callers of the store *)

(** One method after another: an exception ends the sequence. *)
Definition method_ret {A} (a : A) : method A := λ db, (Ok a, db).

Definition method_bind {A B} (m : method A) (f : A → method B) : method B :=
  λ db,
    match m db with
    | (Ok a, db') => f a db'
    | (Raise e, db') => (Raise e, db')
    end.

(** [initialize_db_with_sample_if_empty]; [today] is
    [date.today().isoformat()]. *)
Definition initialize_db_with_sample_if_empty (today : string) : method unit :=
  method_bind (fetch_expenses None None None) (λ rows,
    match rows with
    | [] =>
        method_bind (add_expense (120 # 1) "Food" today (Some "Lunch")) (λ _,
        method_bind
          (add_expense (400 # 1) "Transport" today (Some "Monthly pass")) (λ _,
        method_bind
          (add_expense (2500 # 1) "Rent" today (Some "September rent")) (λ _,
        method_ret ())))
    | _ :: _ => method_ret ()
    end).

(** *** Python's text functions *)

Module PyStr.

(** [s.replace(old, new)] for one-character [old] and [new]. *)
Fixpoint replace (old new : ascii) (s : string) : string :=
  match s with
  | EmptyString => EmptyString
  | String c s' =>
      String (if Ascii.eqb c old then new else c) (replace old new s')
  end.

(** [str(z)] of an int. *)
Definition str (z : Z) : string :=
  (if z <? 0 then "-" else "")
  +:+ NilZero.string_of_uint (N.to_uint (Z.abs_N z)).

(** The integer nearest to [n / d], the even one of two that are as near. *)
Definition round_half_even (n : Z) (d : positive) : Z :=
  let q := n / Z.pos d in
  let r := n mod Z.pos d in
  match 2 * r ?= Z.pos d with
  | Lt => q
  | Gt => q + 1
  | Eq => if Z.even q then q else q + 1
  end.

(** [format(x, ".2f")] of a finite number: the sign, then the nearest
    multiple of a hundredth with two digits after the point. *)
Definition format_2f (x : Q) : string :=
  let hundredths := round_half_even (Z.abs (Qnum x) * 100) (Qden x) in
  (if Qnum x <? 0 then "-" else "")
  +:+ NilZero.string_of_uint (N.to_uint (Z.to_N (hundredths / 100)))
  +:+ "." +:+ Py.format_0d 2 (hundredths mod 100).

(** [sep.join(parts)]. *)
Definition join (sep : string) (parts : list string) : string :=
  String.concat sep parts.

(** [s.split(sep)] for a one-character [sep]. *)
Fixpoint split (sep : ascii) (s : string) : list string :=
  match s with
  | EmptyString => [EmptyString]
  | String c s' =>
      if Ascii.eqb c sep then EmptyString :: split sep s'
      else match split sep s' with
           | [] => [String c EmptyString]
           | field :: fields => String c field :: fields
           end
  end.

(** [c.isspace()] for the characters up to 255: the controls 9 to 13 and 28
    to 31, the space, NEL (133) and the no-break space (160). *)
Definition isspace (c : ascii) : bool :=
  let n := N_of_ascii c in
  ((9 <=? n) && (n <=? 13) || (28 <=? n) && (n <=? 32)
   || (n =? 133) || (n =? 160))%N.

Fixpoint lstrip (s : string) : string :=
  match s with
  | EmptyString => EmptyString
  | String c s' => if isspace c then lstrip s' else s
  end.

Fixpoint rstrip (s : string) : string :=
  match s with
  | EmptyString => EmptyString
  | String c s' =>
      match rstrip s' with
      | EmptyString => if isspace c then EmptyString else String c EmptyString
      | String _ _ as t => String c t
      end
  end.

(** [s.strip()]: [s] without the whitespace at its two ends. *)
Definition strip (s : string) : string := rstrip (lstrip s).

End PyStr.

(** *** [ExpenseTrackerApp.export_csv] *)

Definition newline : string := String "010" "".

(** The text the fallback writer puts in the file, one [f.write] after
    another. *)
Definition csv_header : string :=
  PyStr.join "," ["id"; "amount"; "category"; "date"; "note"].

Definition csv_line (r : Expense) : string :=
  PyStr.join ","
    [PyStr.str (id r); PyStr.format_2f (amount r);
     PyStr.replace "," " " (category r); date r;
     PyStr.replace "," " " (default "" (note r))].

Definition csv_fallback (rows : list Expense) : string :=
  foldl (λ f r, f +:+ csv_line r +:+ newline) (csv_header +:+ newline) rows.

(** What the user sees of an export: the notice that there is nothing to
    export, nothing at all when the file dialog is closed, the error dialog
    when writing raises, or the file that is written and the number of rows
    that is reported. *)
Inductive export_outcome :=
| NoData
| NoPath
| ExportError
| Exported (path content : string) (n : nat).

(** [pd] is pandas when it could be imported ([to_csv] is the text its writer
    produces), [asked_path] what the file dialog returns (the empty string
    when it is closed), [io_error] whether creating or writing the file
    raises. *)
Definition export_csv (pd : option (list Expense → string))
    (asked_path : string) (io_error : bool) : method export_outcome :=
  method_bind (fetch_expenses None None None) (λ rows,
    match rows with
    | [] => method_ret NoData
    | _ :: _ =>
        if String.eqb asked_path "" then method_ret NoPath
        else if io_error then method_ret ExportError
        else
          let content :=
            match pd with
            | Some to_csv => to_csv rows
            | None => csv_fallback rows
            end in
          method_ret (Exported asked_path content (length rows))
    end).

(** *** Reading an exported file *)

(** [c] does not occur in [s]. *)
Fixpoint free_of (c : ascii) (s : string) : bool :=
  match s with
  | EmptyString => true
  | String c' s' => negb (Ascii.eqb c' c) && free_of c s'
  end.

(** The characters of a number in text: digits, sign and point. *)
Definition numeric (c : ascii) : bool :=
  let n := N_of_ascii c in
  ((48 <=? n) && (n <=? 57) || (n =? 45) || (n =? 46))%N.

Fixpoint all_numeric (s : string) : bool :=
  match s with
  | EmptyString => true
  | String c s' => numeric c && all_numeric s'
  end.

(** A record whose texts can stand in a line of the file: no comma in the
    date, no newline in the category, the date and the note. *)
Definition fits_a_line (r : Expense) : bool :=
  free_of "," (date r) && free_of "010" (date r)
  && free_of "010" (category r) && free_of "010" (default "" (note r)).

(** The fields of the line of a record. *)
Definition csv_fields (r : Expense) : list string :=
  [PyStr.str (id r); PyStr.format_2f (amount r);
   PyStr.replace "," " " (category r); date r;
   PyStr.replace "," " " (default "" (note r))].

(** The file as a reader takes it apart: lines, and fields in each line. *)
Definition csv_read (content : string) : list (list string) :=
  PyStr.split "," <$> PyStr.split "010" content.

(** *** [datetime.strptime(data_string, "%Y-%m-%d")] *)

Module datetime.

(** A character class of digits such as [[1-9]]: the value of the digit.
    [\d] is the class of the decimal digits; among the characters up to 255,
    which are the characters of the texts here, these are [0] to [9] (in
    texts with other characters [\d] also takes the digits of other
    scripts). *)
Definition class (lo hi : Z) (c : ascii) : option Z :=
  let n := Z.of_N (N_of_ascii c) - 48 in
  if (lo <=? n) && (n <=? hi) then Some n else None.

(** The ways a piece of the pattern matches at the start of a text, in the
    order in which the matcher tries them: the number read and the text that
    is left.  [one] is one class, [two] is two classes in a row. *)
Definition one (lo hi : Z) (s : string) : list (Z * string) :=
  match s with
  | String a rest =>
      match class lo hi a with
      | Some x => [(x, rest)]
      | None => []
      end
  | EmptyString => []
  end.

Definition two (lo1 hi1 lo2 hi2 : Z) (s : string) : list (Z * string) :=
  match s with
  | String a (String b rest) =>
      match class lo1 hi1 a, class lo2 hi2 b with
      | Some x, Some y => [(10 * x + y, rest)]
      | _, _ => []
      end
  | _ => []
  end.

Definition literal (c : ascii) (s : string) : list string :=
  match s with
  | String a rest => if Ascii.eqb a c then [rest] else []
  | EmptyString => []
  end.

(** [%Y] is [\d\d\d\d]. *)
Definition Y (s : string) : list (Z * string) :=
  '(high, s) ← two 0 9 0 9 s;
  '(low, s) ← two 0 9 0 9 s;
  [(100 * high + low, s)].

(** [%m] is [1[0-2]|0[1-9]|[1-9]]. *)
Definition m (s : string) : list (Z * string) :=
  two 1 1 0 2 s ++ two 0 0 1 9 s ++ one 1 9 s.

(** [%d] is [3[0-1]|[1-2]\d|0[1-9]|[1-9]| [1-9]]. *)
Definition d (s : string) : list (Z * string) :=
  two 3 3 0 1 s ++ two 1 2 0 9 s ++ two 0 0 1 9 s ++ one 1 9 s
  ++ (s ← literal " " s; one 1 9 s).

(** The month and the day with the dashes before them. *)
Definition dash_m_dash_d (s : string) : list (Z * Z * string) :=
  s ← literal "-" s;
  '(month, s) ← m s;
  s ← literal "-" s;
  '(day, s) ← d s;
  [(month, day, s)].

(** The matches of the whole pattern at the start of the text: [found] is the
    first of them. *)
Definition format_regex (s : string) : list (Z * Z * Z * string) :=
  '(year, s) ← Y s;
  '(month, day, s) ← dash_m_dash_d s;
  [(year, month, day, s)].

Definition is_leap (year : Z) : bool :=
  (year mod 4 =? 0) && (negb (year mod 100 =? 0) || (year mod 400 =? 0)).

Definition days_in_month (year month : Z) : Z :=
  if month =? 2 then (if is_leap year then 29 else 28)
  else if (month =? 4) || (month =? 6) || (month =? 9) || (month =? 11)
       then 30 else 31.

(** The dates [date(year, month, day)] accepts. *)
Definition valid_date (year month day : Z) : bool :=
  (1 <=? year) && (year <=? 9999) && (1 <=? month) && (month <=? 12)
  && (1 <=? day) && (day <=? days_in_month year month).

(** The year, month and day of the result; [None] when [ValueError] is
    raised: the text does not match the format, text is left after the match,
    or the numbers are no date. *)
Definition strptime (data_string : string) : option (Z * Z * Z) :=
  match head (format_regex data_string) with
  | None => None
  | Some (year, month, day, rest) =>
      if negb (String.eqb rest "") then None
      else if valid_date year month day then Some (year, month, day)
      else None
  end.

End datetime.

(** *** [ExpenseTrackerApp.validate_date] *)

Definition validate_date (date_text : string) : bool :=
  match datetime.strptime date_text with
  | Some _ => true
  | None => false
  end.

(** The ways the month and the day can be written in a date that passes:
    with two digits, with the digits the number has, and for a day below ten
    with a space in front. *)
Definition month_texts (month : Z) : list string :=
  [Py.format_0d 2 month; Py.format_0d 1 month].

Definition day_texts (day : Z) : list string :=
  [Py.format_0d 2 day; Py.format_0d 1 day]
  ++ (if day <? 10 then [" " +:+ Py.format_0d 1 day] else []).

(** The character of a decimal digit. *)
Definition chr (x : Z) : ascii := ascii_of_N (Z.to_N (x + 48)).

(** *** The main window, [ExpenseTrackerApp] *)

(** What [load_expenses] puts on the screen: the lines of the list and, in
    the status bar, the number of records and the total of their amounts. *)
Record listing_view := mkView {
  tree : list (Z * string * string * string * option string);
  loaded : nat;
  shown_total : Q
}.

Definition load_expenses (search_var : string) : method listing_view :=
  let search := PyStr.strip search_var in
  method_bind (fetch_expenses (Some search) None None) (λ rows,
    method_ret
      {| tree := (λ r, (id r, PyStr.format_2f (amount r), category r, date r,
                        note r)) <$> rows;
         loaded := length rows;
         shown_total :=
           foldl (λ total r, Qplus total (amount r)) 0%Q rows |}).

(** What a form does when its button is pressed: it warns and stops, or it
    writes to the store and the list is loaded again.  The forms read the
    amount with Python's [float], which is a parameter here: the number for a
    text that reads as a finite number, [None] where [ValueError] is raised
    (amounts that are not finite are outside the model, as for the store). *)
Inductive form_outcome :=
| showwarning (title message : string)
| Added (eid : Z) (shown : listing_view)
| Saved (eid : Z) (shown : listing_view).

(** [ExpenseTrackerApp.add_expense], the handler of the button Add Expense:
    the four fields of the form and the search box as they stand. *)
Definition form_add_expense (float : string → option Q)
    (amount_var category_var date_var note_var search_var : string)
    : method form_outcome :=
  let amt_text := PyStr.strip amount_var in
  let cat := PyStr.strip category_var in
  let date_text := PyStr.strip date_var in
  let note := PyStr.strip note_var in
  if String.eqb amt_text "" then
    method_ret (showwarning "Validation" "Please enter amount.")
  else
    match float amt_text with
    | None =>
        method_ret
          (showwarning "Validation" "Invalid amount. Use numbers like 250.50")
    | Some amt =>
        if String.eqb cat "" then
          method_ret (showwarning "Validation" "Please select a category.")
        else if negb (validate_date date_text) then
          method_ret
            (showwarning "Validation" "Invalid date format. Use YYYY-MM-DD.")
        else
          method_bind (add_expense amt cat date_text (Some note)) (λ eid,
          method_bind (load_expenses search_var) (λ shown,
          method_ret (Added eid shown)))
    end.

(** [delete_selected]: [selection] is the id of the selected line, if one is
    selected, [askyesno] the answer to the question. *)
Inductive delete_outcome :=
| NothingSelected
| Declined
| Deleted (eid : Z) (shown : listing_view).

Definition delete_selected (selection : option Z) (askyesno : bool)
    (search_var : string) : method delete_outcome :=
  match selection with
  | None => method_ret NothingSelected
  | Some eid =>
      if askyesno then
        method_bind (delete_expense eid) (λ _,
        method_bind (load_expenses search_var) (λ shown,
        method_ret (Deleted eid shown)))
      else method_ret Declined
  end.

(** *** [EditExpenseWindow.save] *)

(** The window edits the record [eid]; after the update and the notice that
    it is saved, [on_save] loads the list of the main window again. *)
Definition save (float : string → option Q) (eid : Z)
    (amount_var category_var date_var note_var search_var : string)
    : method form_outcome :=
  let amt_text := PyStr.strip amount_var in
  let cat := PyStr.strip category_var in
  let date_text := PyStr.strip date_var in
  let note := PyStr.strip note_var in
  if String.eqb amt_text "" then
    method_ret (showwarning "Validation" "Please enter amount.")
  else
    match float amt_text with
    | None => method_ret (showwarning "Validation" "Invalid amount.")
    | Some amt =>
        match datetime.strptime date_text with
        | None => method_ret (showwarning "Validation" "Invalid date format.")
        | Some _ =>
            method_bind (update_expense eid amt cat date_text (Some note))
              (λ _,
            method_bind (load_expenses search_var) (λ shown,
            method_ret (Saved eid shown)))
        end
    end.

(** *** [ReportWindow.show_report] *)

(** Which report of a month is drawn: the warning that the month is none,
    the notice that the month has no expenses, or the lines and the chart of
    the totals by category that the store returns.  The total line is the
    floating-point sum of these totals in the order of the dictionary; its
    value depends on the rounding of each addition and is not part of the
    model. *)
Inductive report :=
| InvalidMonth
| NoExpenses
| Report (data : gmap string Q).

Definition show_report (year month : Z) : method report :=
  if (month <? 1) || (month >? 12) then method_ret InvalidMonth
  else
    method_bind (monthly_summary year month) (λ data,
      if decide (data = ∅) then method_ret NoExpenses
      else method_ret (Report data)).

(** *** [main] *)

(** What the user does in the windows. *)
Inductive event :=
| AddExpense (amount_var category_var date_var note_var search_var : string)
| LoadExpenses (search_var : string)
| DeleteSelected (selection : option Z) (askyesno : bool) (search_var : string)
| Save (eid : Z)
       (amount_var category_var date_var note_var search_var : string)
| ExportCsv (asked_path : string) (io_error : bool)
| ShowReport (year month : Z).

(** The store after the handler of an event; an exception in a handler is
    reported and the main loop goes on. *)
Definition handle (float : string → option Q)
    (pd : option (list Expense → string)) (e : event) (db : ExpenseDB)
    : ExpenseDB :=
  match e with
  | AddExpense amount_var category_var date_var note_var search_var =>
      (form_add_expense float amount_var category_var date_var note_var
         search_var db).2
  | LoadExpenses search_var => (load_expenses search_var db).2
  | DeleteSelected selection askyesno search_var =>
      (delete_selected selection askyesno search_var db).2
  | Save eid amount_var category_var date_var note_var search_var =>
      (save float eid amount_var category_var date_var note_var search_var
         db).2
  | ExportCsv asked_path io_error => (export_csv pd asked_path io_error db).2
  | ShowReport year month => (show_report year month db).2
  end.

(** [main]: the store is opened on the database file, the main window loads
    the list, and the main loop handles the events until the window is
    closed. *)
Definition main (float : string → option Q)
    (pd : option (list Expense → string)) (file : option ExpenseDB)
    (events : list event) : ExpenseDB :=
  let db := create_table file in
  let db := (load_expenses "" db).2 in
  foldl (λ db e, handle float pd e db) db events.

(** *** What the forms let into the store *)

(** A record as the forms write it: the date has passed the check and the
    note is a text. *)
Definition from_a_form (r : Expense) : Prop :=
  validate_date (date r) = true ∧ note r ≠ None.

Global Instance from_a_form_dec r : Decision (from_a_form r).
Proof. unfold from_a_form. apply _. Defined.

(** All the characters of a text are whitespace. *)
Fixpoint blank (s : string) : bool :=
  match s with
  | EmptyString => true
  | String c s' => PyStr.isspace c && blank s'
  end.

(** ** Two stores to compute with *)

(** Three records dated 2024-03-01, 2024-03-02 and 2024-02-28, with amounts
    10, 20 and 30, in categories A, A and B. *)
Definition scenario : ExpenseDB :=
  {| rows := [mkExpense 1 (10 # 1) "A" "2024-03-01" (Some "lunch");
              mkExpense 2 (20 # 1) "A" "2024-03-02" None;
              mkExpense 3 (30 # 1) "B" "2024-02-28" (Some "")];
     seq := 3 |}.

(** The three expenses of [initialize_db_with_sample_if_empty], on a fixed day. *)
Definition sample_expenses : ExpenseDB :=
  {| rows := [mkExpense 1 (120 # 1) "Food" "2025-09-01" (Some "Lunch");
              mkExpense 2 (400 # 1) "Transport" "2025-09-01" (Some "Monthly pass");
              mkExpense 3 (2500 # 1) "Rent" "2025-09-01" (Some "September rent")];
     seq := 3 |}.

(** A lifetime on the scenario: a record is created and deleted again, and
    the next create does not get its id back. *)
Definition create_delete : list call :=
  [Create (5 # 1) "C" "2024-04-01" None; Delete 4].

Example format_year : Py.format_0d 4 2024 = "2024" ∧ Py.format_0d 2 3 = "03"
  ∧ Py.format_0d 4 (-5) = "-005" ∧ Py.format_0d 4 12345 = "12345".
Proof. vm_compute. done. Qed.

Example scenario_list :
  id <$> match (fetch_expenses None None None scenario).1 with Ok l => l | _ => [] end
  = [2; 1; 3].
Proof. vm_compute. done. Qed.

Example scenario_summary :
  (monthly_summary 2024 3 scenario).1 = Ok {[ "A" := (30 # 1)%Q ]}.
Proof. vm_compute. done. Qed.

(** ** The order of a listing *)

Lemma text_lt_strict a b : Sql.text_lt a b = true ↔ strict String.le a b.
Proof.
  unfold Sql.text_lt, strict, String.le. split.
  - intros Hba. destruct (String.leb_total a b) as [Hab | Hab].
    + rewrite Hab. split; [done |]. revert Hba.
      destruct (String.leb b a); simpl; intuition congruence.
    + by rewrite Hab in Hba.
  - intros [_ Hba]. revert Hba.
    destruct (String.leb b a); simpl; intuition congruence.
Qed.

Global Instance date_desc_id_desc_total : Total date_desc_id_desc.
Proof.
  intros r1 r2. unfold date_desc_id_desc.
  destruct (decide (date r1 = date r2)) as [Heq | Hne].
  - destruct (Z.le_ge_cases (id r1) (id r2)); [right | left]; right;
      (split; [congruence | lia]).
  - destruct (total String.le (date r1) (date r2)) as [Hle | Hle].
    + right. left. split; [done |]. intros Hge. by apply Hne, (anti_symm String.le).
    + left. left. split; [done |]. intros Hge. by apply Hne, (anti_symm String.le).
Qed.

Global Instance date_desc_id_desc_trans : Transitive date_desc_id_desc.
Proof.
  intros r1 r2 r3 [H12 | [E12 I12]] [H23 | [E23 I23]]; unfold date_desc_id_desc.
  - left. by trans (date r2).
  - left. by rewrite <- E23.
  - left. by rewrite E12.
  - right. split; [congruence | lia].
Qed.

Lemma order_by_permutation (l : list Expense) : order_by_date_desc_id_desc l ≡ₚ l.
Proof. apply merge_sort_Permutation. Qed.

Lemma order_by_sorted (l : list Expense) :
  StronglySorted date_desc_id_desc (order_by_date_desc_id_desc l).
Proof. apply StronglySorted_merge_sort; apply _. Qed.

(** Rows with distinct ids are told apart by their ids. *)
Lemma same_id_same_row (rs : list Expense) r1 r2 :
  NoDup (id <$> rs) → r1 ∈ rs → r2 ∈ rs → id r1 = id r2 → r1 = r2.
Proof.
  induction rs as [| r rs IH]; [by intros _ ?%elem_of_nil |].
  rewrite fmap_cons, NoDup_cons, !elem_of_cons.
  intros [Hr Hnd] [-> | H1] [-> | H2] Hid; [done | | | by apply IH].
  - destruct Hr. rewrite Hid. by apply list_elem_of_fmap_2.
  - destruct Hr. rewrite <- Hid. by apply list_elem_of_fmap_2.
Qed.

(** On a table with distinct ids the order leaves no choice: whatever way the
    engine sorts, the listing is the same. *)
Lemma order_by_unique (rs l : list Expense) :
  NoDup (id <$> rs) →
  l ≡ₚ rs →
  StronglySorted date_desc_id_desc l →
  l = order_by_date_desc_id_desc rs.
Proof.
  intros Hnd Hperm Hsorted.
  apply (StronglySorted_unique_strong date_desc_id_desc);
    [| done | apply order_by_sorted | by rewrite order_by_permutation].
  intros r1 r2 H1 H2 H12 H21.
  rewrite Hperm in H1. rewrite order_by_permutation in H2.
  apply (same_id_same_row rs); [done.. |].
  destruct H12 as [[_ Hn12] | [E12 I12]], H21 as [[Hle21 Hn21] | [E21 I21]].
  - by destruct Hn12.
  - destruct Hn12. by rewrite E21.
  - destruct Hn21. by rewrite E12.
  - lia.
Qed.

(** ** What a listing selects *)

Lemma filter_all {A} (P : A → Prop) `{∀ x, Decision (P x)} (l : list A) :
  (∀ x, P x) → filter P l = l.
Proof.
  intros HP. induction l as [| x l IH]; [done |].
  by rewrite filter_cons_True, IH.
Qed.

Lemma where_keeps_and a b :
  Sql.where_keeps (Sql.tri_and a b) = true
  ↔ Sql.where_keeps a = true ∧ Sql.where_keeps b = true.
Proof. destruct a as [[]|], b as [[]|]; simpl; intuition congruence. Qed.

Lemma where_keeps_ge d x : Sql.where_keeps (Sql.ge x d) = true ↔ String.le d x.
Proof. unfold Sql.ge, Sql.text_le, String.le. simpl. by destruct (String.leb d x). Qed.

Lemma where_keeps_le d x : Sql.where_keeps (Sql.le x d) = true ↔ String.le x d.
Proof. unfold Sql.le, Sql.text_le, String.le. simpl. by destruct (String.leb x d). Qed.

Lemma where_keeps_lt d x : Sql.where_keeps (Sql.lt x d) = true ↔ strict String.le x d.
Proof. unfold Sql.lt. simpl. rewrite <- text_lt_strict. by destruct (Sql.text_lt x d). Qed.

Lemma truthy_Some s : Py.truthy (Some s) = bool_decide (s ≠ "").
Proof.
  unfold Py.truthy.
  destruct (String.eqb_spec s "") as [-> | Hne]; [done |].
  by rewrite bool_decide_eq_true_2.
Qed.

Lemma fetch_expenses_eq search start_date end_date db :
  fetch_expenses search start_date end_date db
  = (Ok (order_by_date_desc_id_desc
           (filter (selects search start_date end_date) (rows db))), db).
Proof.
  unfold fetch_expenses. do 3 f_equal.
  destruct search as [s|], start_date as [sd|], end_date as [ed|];
    rewrite ?truthy_Some; repeat case_bool_decide; cbn [app];
    first [ symmetry; apply filter_all; intros r; unfold selects, supplied;
            repeat case_decide; done
          | apply list_filter_iff; intros r;
            unfold selects, supplied, and_join; cbn [foldl];
            rewrite ?where_keeps_and; unfold start_clause, end_clause;
            rewrite ?where_keeps_ge, ?where_keeps_le; unfold matches_search;
            repeat case_decide; try done; tauto ].
Qed.

Lemma elem_of_listing search start_date end_date db r :
  r ∈ order_by_date_desc_id_desc
        (filter (selects search start_date end_date) (rows db))
  ↔ r ∈ rows db ∧ selects search start_date end_date r.
Proof. rewrite order_by_permutation, list_elem_of_filter. tauto. Qed.

(** C4. With no filter the listing returns every record of the store exactly
    once (it is a permutation of the table, so nothing is left out or cut
    off), sorted by date descending and, for equal dates, by id descending. *)
Theorem list_all_sorted db :
  ∃ l, fetch_expenses None None None db = (Ok l, db)
       ∧ l ≡ₚ rows db
       ∧ StronglySorted date_desc_id_desc l.
Proof.
  eexists. split; [apply fetch_expenses_eq |]. split.
  - rewrite order_by_permutation. by rewrite filter_all.
  - apply order_by_sorted.
Qed.

(** C5. A listing keeps exactly the records whose date is not below a supplied
    [start_date] and not above a supplied [end_date] in the order of strings,
    and that pass the search filter if there is one; a bound counts as
    supplied when it is given and not empty. *)
Theorem list_date_range db search start_date end_date :
  ∃ l, fetch_expenses search start_date end_date db = (Ok l, db)
       ∧ l ≡ₚ filter (selects search start_date end_date) (rows db)
       ∧ (∀ r, r ∈ l ↔
            r ∈ rows db
            ∧ supplied start_date (λ d, String.le d (date r))
            ∧ supplied end_date (λ d, String.le (date r) d)
            ∧ supplied search (λ s, matches_search s r))
       ∧ (∀ r d, r ∈ l → start_date = Some d → d ≠ "" → String.le d (date r))
       ∧ (∀ r d, r ∈ l → end_date = Some d → d ≠ "" → String.le (date r) d).
Proof.
  eexists. split; [apply fetch_expenses_eq |].
  pose proof (elem_of_listing search start_date end_date db) as Hin.
  split; [apply order_by_permutation |]. split; [| split].
  - intros r. rewrite Hin. unfold selects. tauto.
  - intros r d [_ (_ & Hs & _)]%Hin -> Hd. simpl in Hs. by case_decide.
  - intros r d [_ (_ & _ & He)]%Hin -> Hd. simpl in He. by case_decide.
Qed.

Lemma list_date_range_witness :
  ∃ l, fetch_expenses None (Some "2024-03-01") (Some "2024-03-31") scenario
       = (Ok l, scenario)
       ∧ id <$> l = [2; 1]
       ∧ ∀ r, r ∈ l → String.le "2024-03-01" (date r)
                      ∧ String.le (date r) "2024-03-31".
Proof.
  destruct (list_date_range scenario None (Some "2024-03-01") (Some "2024-03-31"))
    as (l & Hl & _ & _ & Hstart & Hend).
  exists l. split; [done |]. split.
  - by injection Hl as <-.
  - intros r Hr. split; [by eapply Hstart | by eapply Hend].
Defined.

Lemma run_app cs1 cs2 db :
  run (cs1 ++ cs2) db
  = ((run cs1 db).1 ++ (run cs2 (run cs1 db).2).1, (run cs2 (run cs1 db).2).2).
Proof.
  revert db. induction cs1 as [| c cs1 IH]; intros db; simpl.
  - by destruct (run cs2 db).
  - destruct (step c db) as [i db1]. rewrite IH.
    destruct (run cs1 db1) as [ids1 db2]. simpl. by rewrite (assoc (++)).
Qed.

Lemma run_reads reads db :
  Forall (λ c, is_read c = true) reads → run reads db = ([], db).
Proof.
  induction 1 as [| c reads Hc _ IH]; [done |].
  simpl. destruct c; try done; simpl; by rewrite IH.
Qed.

(** C8. Listing and the monthly summary leave the store as it was: no record
    is created, changed or deleted, and a lifetime with reads in it ends in
    the same store, with the same ids assigned, as the lifetime without. *)
Theorem reads_leave_store_unchanged db search start_date end_date year month :
  (fetch_expenses search start_date end_date db).2 = db
  ∧ (monthly_summary year month db).2 = db
  ∧ ∀ before reads after,
      Forall (λ c, is_read c = true) reads →
      run (before ++ reads ++ after) db = run (before ++ after) db.
Proof.
  split; [done |]. split; [done |]. intros before reads after Hreads.
  rewrite !run_app. by rewrite (run_reads reads).
Qed.

Lemma reads_leave_store_unchanged_witness :
  run (create_delete ++ [List_ (Some "a") None None; MonthlySummary 2024 3]
         ++ [Create (7 # 1) "C" "2024-04-02" None]) scenario
  = run (create_delete ++ [Create (7 # 1) "C" "2024-04-02" None]) scenario.
Proof.
  destruct (reads_leave_store_unchanged scenario None None None 2024 3)
    as (_ & _ & Hreads).
  apply Hreads. by repeat constructor.
Defined.

(** C10. An empty string for [search], [start_date] or [end_date] is the same
    as leaving the argument out, whatever the other arguments are: the filter
    is not applied, and with three empty strings the listing is the listing
    without arguments. *)
Theorem empty_string_is_omitted db search start_date end_date :
  fetch_expenses (Some "") start_date end_date db
    = fetch_expenses None start_date end_date db
  ∧ fetch_expenses search (Some "") end_date db
    = fetch_expenses search None end_date db
  ∧ fetch_expenses search start_date (Some "") db
    = fetch_expenses search start_date None db
  ∧ fetch_expenses (omit_empty search) (omit_empty start_date)
      (omit_empty end_date) db
    = fetch_expenses search start_date end_date db
  ∧ fetch_expenses (Some "") (Some "") (Some "") db
    = fetch_expenses None None None db.
Proof.
  repeat split.
  destruct search as [[| c1 s1] |], start_date as [[| c2 s2] |],
    end_date as [[| c3 s3] |]; reflexivity.
Qed.

(** ** Updating and deleting *)

Lemma update_rows_missing (expense_id : Z) (f : Expense → Expense)
    (rs : list Expense) :
  expense_id ∉ id <$> rs →
  (λ r, if decide (id r = expense_id) then f r else r) <$> rs = rs.
Proof.
  induction rs as [| r rs IH]; [done |].
  rewrite fmap_cons, not_elem_of_cons. intros [Hr Hrs].
  rewrite fmap_cons, IH by done. by rewrite decide_False.
Qed.

Lemma delete_rows_missing (expense_id : Z) (rs : list Expense) :
  expense_id ∉ id <$> rs → filter (λ r, id r ≠ expense_id) rs = rs.
Proof.
  induction rs as [| r rs IH]; [done |].
  rewrite fmap_cons, not_elem_of_cons. intros [Hr Hrs].
  rewrite filter_cons_True by done. by rewrite IH.
Qed.

(** An id that fits in 64 bits is given to the statement, any other raises
    [OverflowError] before the statement is run. *)
Lemma update_expense_int64 expense_id a c d n db :
  Py.int64 expense_id = true →
  update_expense expense_id a c d n db
  = (Ok (),
     {| rows := (λ r, if decide (id r = expense_id)
                      then mkExpense (id r) a c d n else r) <$> rows db;
        seq := seq db |}).
Proof. intros Hid. unfold update_expense. by rewrite Hid. Qed.

Lemma delete_expense_int64 expense_id db :
  Py.int64 expense_id = true →
  delete_expense expense_id db
  = (Ok (),
     {| rows := filter (λ r, id r ≠ expense_id) (rows db); seq := seq db |}).
Proof. intros Hid. unfold delete_expense. by rewrite Hid. Qed.

Lemma update_expense_overflow expense_id a c d n db :
  Py.int64 expense_id = false →
  update_expense expense_id a c d n db = (Raise OverflowError, db).
Proof. intros Hid. unfold update_expense. by rewrite Hid. Qed.

Lemma delete_expense_overflow expense_id db :
  Py.int64 expense_id = false →
  delete_expense expense_id db = (Raise OverflowError, db).
Proof. intros Hid. unfold delete_expense. by rewrite Hid. Qed.

Lemma deleted_id_missing expense_id db :
  Py.int64 expense_id = true →
  expense_id ∉ id <$> rows (delete_expense expense_id db).2.
Proof.
  intros Hid. rewrite delete_expense_int64 by done.
  simpl. rewrite list_elem_of_fmap. intros (r & -> & Hr).
  apply list_elem_of_filter in Hr as [Hne _]. done.
Qed.

Lemma missing_id_no_op expense_id db :
  Py.int64 expense_id = true →
  expense_id ∉ id <$> rows db →
  (∀ a c d n, update_expense expense_id a c d n db = (Ok (), db))
  ∧ delete_expense expense_id db = (Ok (), db).
Proof.
  intros Hfits Hid. destruct db as [rs sq].
  split; [intros a c d n; rewrite update_expense_int64 by done
         | rewrite delete_expense_int64 by done];
    simpl in *; do 2 f_equal.
  - by apply update_rows_missing.
  - by apply delete_rows_missing.
Qed.

(** C6 (as amended). On an id that fits in 64 bits and that no record holds,
    be it that no record ever had it or that its record has been deleted,
    update and delete return normally and leave the store as it is; a second
    delete of the same id is of this kind, and the listings after the call
    are the listings before it. *)
Theorem update_delete_missing_id expense_id db :
  Py.int64 expense_id = true →
  expense_id ∉ id <$> rows db
  ∨ (∃ db0, db = (delete_expense expense_id db0).2) →
  (∀ a c d n, update_expense expense_id a c d n db = (Ok (), db))
  ∧ delete_expense expense_id db = (Ok (), db)
  ∧ (∀ a c d n s sd ed,
       fetch_expenses s sd ed (update_expense expense_id a c d n db).2
       = fetch_expenses s sd ed db)
  ∧ (∀ s sd ed,
       fetch_expenses s sd ed (delete_expense expense_id db).2
       = fetch_expenses s sd ed db).
Proof.
  intros Hfits Hmissing.
  assert (expense_id ∉ id <$> rows db) as Hid.
  { destruct Hmissing as [? | [db0 ->]]; [done | by apply deleted_id_missing]. }
  destruct (missing_id_no_op expense_id db Hfits Hid) as [Hu Hd].
  split; [done |]. split; [done |]. split.
  - intros a c d n s sd ed. by rewrite Hu.
  - intros s sd ed. by rewrite Hd.
Qed.

Lemma update_delete_missing_id_witness :
  (7 ∉ id <$> rows scenario)
  ∧ (∀ a c d n, update_expense 7 a c d n scenario = (Ok (), scenario))
  ∧ delete_expense 7 scenario = (Ok (), scenario)
  ∧ delete_expense 2 (delete_expense 2 scenario).2
    = (Ok (), (delete_expense 2 scenario).2).
Proof.
  assert (7 ∉ id <$> rows scenario) as Hmissing by compute_done.
  split; [done |].
  destruct (update_delete_missing_id 7 scenario eq_refl (or_introl Hmissing))
    as (Hupdate & Hdelete & _).
  destruct (update_delete_missing_id 2 (delete_expense 2 scenario).2 eq_refl
              (or_intror (ex_intro _ scenario eq_refl)))
    as (_ & Htwice & _).
  done.
Defined.

(** An id that does not fit in 64 bits is held by no record, and update and
    delete on it end in an error: with 2^63 both raise [OverflowError]. *)
Lemma update_delete_overflow_counterexample :
  (2 ^ 63 ∉ id <$> rows scenario)
  ∧ (∀ a c d n,
       update_expense (2 ^ 63) a c d n scenario
       = (Raise OverflowError, scenario))
  ∧ delete_expense (2 ^ 63) scenario = (Raise OverflowError, scenario).
Proof.
  split; [compute_done |]. split; [intros a c d n |]; reflexivity.
Qed.

(** ** Keys *)

Lemma consistent_create_table : consistent (create_table None).
Proof. split; simpl; constructor. Qed.

Lemma max_rowid_bound (rs : list Expense) : Forall (λ r, id r ≤ max_rowid rs) rs.
Proof.
  induction rs as [| r rs IH]; [constructor |].
  assert (max_rowid (r :: rs) = Z.max (id r) (max_rowid rs)) as -> by done.
  constructor; [lia |].
  eapply Forall_impl; [exact IH |]. simpl. intros; lia.
Qed.

Lemma largest_rowid_ever_bound db :
  seq db ≤ largest_rowid_ever db
  ∧ Forall (λ r, id r ≤ largest_rowid_ever db) (rows db).
Proof.
  unfold largest_rowid_ever. split; [lia |].
  eapply Forall_impl; [apply max_rowid_bound |]. simpl. intros; lia.
Qed.

Lemma add_expense_Ok a c d n db i db' :
  add_expense a c d n db = (Ok i, db') →
  i = largest_rowid_ever db + 1
  ∧ db' = {| rows := rows db ++ [mkExpense i a c d n]; seq := i |}.
Proof. unfold add_expense. case_decide; intros ?; by simplify_eq. Qed.

Lemma add_expense_Raise a c d n db e db' :
  add_expense a c d n db = (Raise e, db') → db' = db.
Proof. unfold add_expense. case_decide; intros ?; by simplify_eq. Qed.

(** On a consistent table that is not full a create returns the successor of
    the counter. *)
Lemma add_expense_next a c d n db :
  consistent db → 0 ≤ seq db < Sql.MAX_ROWID →
  add_expense a c d n db
  = (Ok (seq db + 1),
     {| rows := rows db ++ [mkExpense (seq db + 1) a c d n];
        seq := seq db + 1 |}).
Proof.
  intros [_ Hle] Hseq.
  assert (largest_rowid_ever db = seq db) as Hlast.
  { unfold largest_rowid_ever. apply Z.max_l.
    induction (rows db) as [| r rs IH]; [unfold max_rowid; simpl; lia |].
    apply Forall_cons in Hle as [Hr Hrs].
    assert (max_rowid (r :: rs) = Z.max (id r) (max_rowid rs)) as -> by done.
    specialize (IH Hrs). lia. }
  unfold add_expense. rewrite Hlast. by rewrite decide_False by lia.
Qed.

Lemma step_assigns c db i :
  (step c db).1 = Some i →
  seq db < i ∧ Forall (λ r, id r < i) (rows db) ∧ seq (step c db).2 = i.
Proof.
  destruct c as [a cat d n | | | |]; simpl; try done.
  destruct (add_expense a cat d n db) as [[j | e] db'] eqn:Hadd; simpl; [| done].
  intros [= ->]. apply add_expense_Ok in Hadd as [-> ->]. simpl.
  destruct (largest_rowid_ever_bound db) as [Hseq Hrows].
  split; [lia |]. split; [| done].
  eapply Forall_impl; [exact Hrows |]. simpl. intros; lia.
Qed.

Lemma step_seq_mono c db : seq db ≤ seq (step c db).2.
Proof.
  destruct (step c db).1 as [i|] eqn:Hi.
  { apply step_assigns in Hi. lia. }
  destruct c as [a cat d n | j a cat d n | j | |]; simpl in *; try done.
  - destruct (add_expense a cat d n db) as [[j | e] db'] eqn:Hadd; simpl in *;
      [done |].
    by apply add_expense_Raise in Hadd as ->.
  - unfold update_expense. by destruct (Py.int64 j).
  - unfold delete_expense. by destruct (Py.int64 j).
Qed.

Lemma update_keeps_ids (expense_id : Z) (f : Expense → Expense)
    (rs : list Expense) :
  (∀ r, id (f r) = id r) →
  id <$> ((λ r, if decide (id r = expense_id) then f r else r) <$> rs) = id <$> rs.
Proof.
  intros Hf. rewrite <- list_fmap_compose. apply list_fmap_ext.
  intros _ r _. simpl. by case_decide.
Qed.

Lemma consistent_step c db : consistent db → consistent (step c db).2.
Proof.
  intros [Hnd Hle]. destruct c as [a cat d n | i a cat d n | i | |]; simpl;
    [| | | done..].
  - destruct (add_expense a cat d n db) as [[j | e] db'] eqn:Hadd; simpl.
    + assert (seq db < j ∧ Forall (λ r, id r < j) (rows db)) as [Hseq Hrows].
      { pose proof (step_assigns (Create a cat d n) db j) as Hstep.
        simpl in Hstep. rewrite Hadd in Hstep.
        by destruct (Hstep eq_refl) as (? & ? & _). }
      apply add_expense_Ok in Hadd as [_ ->]. split; simpl.
      * rewrite fmap_app. apply NoDup_app. split; [done |]. split.
        -- intros k [r [-> Hr]]%list_elem_of_fmap Hk%list_elem_of_singleton.
           rewrite Forall_forall in Hrows. specialize (Hrows r Hr). simpl in *; lia.
        -- simpl. apply NoDup_singleton.
      * apply Forall_app. split; [| by repeat constructor].
        eapply Forall_impl; [exact Hrows |]. simpl. intros; lia.
    + apply add_expense_Raise in Hadd as ->. by split.
  - unfold update_expense. destruct (Py.int64 i); [| by split].
    split; simpl.
    + by rewrite update_keeps_ids.
    + apply Forall_fmap. eapply Forall_impl; [exact Hle |].
      intros r Hr. simpl. by case_decide.
  - unfold delete_expense. destruct (Py.int64 i); [| by split].
    split; simpl.
    + eapply sublist_NoDup; [exact Hnd |]. apply fmap_sublist, sublist_filter.
    + rewrite Forall_forall in Hle. apply Forall_forall.
      intros r [_ Hr]%list_elem_of_filter. by apply Hle.
Qed.

Lemma consistent_run cs db : consistent db → consistent (run cs db).2.
Proof.
  revert db. induction cs as [| c cs IH]; intros db Hdb; [done |].
  simpl. destruct (step c db) as [i db1] eqn:Hstep.
  specialize (IH db1). destruct (run cs db1) as [ids db2]. simpl in *.
  apply IH. replace db1 with (step c db).2 by by rewrite Hstep.
  by apply consistent_step.
Qed.

(** The ids a lifetime assigns are above the counter it started from, at most
    the counter it ends with, and each is larger than the one before. *)
Lemma run_assigned cs db :
  seq db ≤ seq (run cs db).2
  ∧ Forall (λ j, seq db < j ≤ seq (run cs db).2) (run cs db).1
  ∧ StronglySorted Z.lt (run cs db).1.
Proof.
  revert db. induction cs as [| c cs IH]; intros db.
  { simpl. split; [lia |]. split; constructor. }
  simpl. pose proof (step_seq_mono c db) as Hmono.
  pose proof (step_assigns c db) as Hassign.
  destruct (step c db) as [i db1]. specialize (IH db1).
  destruct (run cs db1) as [ids db2]. simpl in *.
  destruct IH as (Hseq & Hids & Hsorted). split; [lia |].
  assert (Forall (λ j, seq db < j ≤ seq db2) ids) as Hids'.
  { eapply Forall_impl; [exact Hids |]. simpl. intros; lia. }
  destruct i as [i|]; simpl; [| done].
  destruct (Hassign i eq_refl) as (Hi & _ & Hi').
  split; [constructor; [lia | done] |].
  constructor; [done |].
  eapply Forall_impl; [exact Hids |]. simpl. intros; lia.
Qed.

(** C3. Whatever calls a store has served since it was opened on a consistent
    table, the id a create returns is larger than every id the table held
    when it was opened, every id assigned since (whether or not its record
    was deleted in between) and every id the table holds now; the ids
    assigned form a strictly increasing sequence, and the table still has no
    two records with the same id. *)
Theorem create_id_above_all_previous db cs c i :
  consistent db →
  (step c (run cs db).2).1 = Some i →
  Forall (λ r, id r < i) (rows db)
  ∧ Forall (λ j, j < i) (run cs db).1
  ∧ Forall (λ r, id r < i) (rows (run cs db).2)
  ∧ StronglySorted Z.lt ((run cs db).1 ++ [i])
  ∧ NoDup (id <$> rows (step c (run cs db).2).2).
Proof.
  intros Hdb Hi.
  destruct (run_assigned cs db) as (Hseq & Hids & Hsorted).
  pose proof (consistent_run cs db Hdb) as Hrun.
  destruct (step_assigns _ _ _ Hi) as (Hlt & Hrows & _).
  assert (Forall (λ j, j < i) (run cs db).1) as Hbelow.
  { eapply Forall_impl; [exact Hids |]. simpl. intros; lia. }
  split; [| split; [done | split; [done | split]]].
  - destruct Hdb as [_ Hle]. eapply Forall_impl; [exact Hle |]. simpl. intros; lia.
  - apply StronglySorted_app_2; [| done | by repeat constructor].
    intros j k Hj ->%list_elem_of_singleton.
    rewrite Forall_forall in Hbelow. by apply Hbelow.
  - by apply consistent_step.
Qed.

Lemma create_id_above_all_previous_witness :
  consistent scenario
  ∧ (step (Create (7 # 1) "C" "2024-04-02" (Some "")) (run create_delete scenario).2).1
    = Some 5
  ∧ (run create_delete scenario).1 = [4]
  ∧ Forall (λ r, id r < 5) (rows scenario)
  ∧ Forall (λ j, j < 5) (run create_delete scenario).1
  ∧ Forall (λ r, id r < 5) (rows (run create_delete scenario).2)
  ∧ StronglySorted Z.lt ((run create_delete scenario).1 ++ [5])
  ∧ NoDup (id <$> rows (step (Create (7 # 1) "C" "2024-04-02" (Some ""))
                          (run create_delete scenario).2).2).
Proof.
  assert (consistent scenario) as Hc by compute_done.
  split; [done |]. split; [reflexivity |]. split; [reflexivity |].
  apply (create_id_above_all_previous scenario create_delete
           (Create (7 # 1) "C" "2024-04-02" (Some "")) 5 Hc eq_refl).
Defined.

(** C7. A create on a table that is not full returns an id that no record
    held, and the listing that follows contains the record with that id and
    the amount, category, date and note that were given, and no other record
    with that id. *)
Theorem create_then_list db a c d n :
  largest_rowid_ever db ≠ Sql.MAX_ROWID →
  ∃ i db' l,
    add_expense a c d n db = (Ok i, db')
    ∧ fetch_expenses None None None db' = (Ok l, db')
    ∧ mkExpense i a c d n ∈ l
    ∧ (∀ r, r ∈ l → id r = i → r = mkExpense i a c d n)
    ∧ i ∉ id <$> rows db.
Proof.
  intros Hfull.
  destruct (add_expense a c d n db) as [[i | e] db'] eqn:Hadd.
  2: { unfold add_expense in Hadd. by rewrite decide_False in Hadd. }
  pose proof (step_assigns (Create a c d n) db i) as Hstep.
  simpl in Hstep. rewrite Hadd in Hstep. destruct (Hstep eq_refl) as (_ & Hrows & _).
  apply add_expense_Ok in Hadd as [Hi ->].
  set (db' := {| rows := rows db ++ [mkExpense i a c d n]; seq := i |}).
  set (l := order_by_date_desc_id_desc (filter (selects None None None) (rows db'))).
  assert (l ≡ₚ rows db ++ [mkExpense i a c d n]) as Hperm.
  { unfold l. rewrite order_by_permutation. by rewrite filter_all. }
  rewrite Forall_forall in Hrows.
  exists i, db', l. split; [done |]. split; [apply fetch_expenses_eq |].
  split; [| split].
  - rewrite Hperm, elem_of_app, list_elem_of_singleton. by right.
  - intros r. rewrite Hperm, elem_of_app, list_elem_of_singleton.
    intros [Hr | ->] Hid; [| done]. specialize (Hrows r Hr). simpl in Hrows. lia.
  - intros [r [-> Hr]]%list_elem_of_fmap. specialize (Hrows r Hr). simpl in Hrows. lia.
Qed.

Lemma create_then_list_witness :
  largest_rowid_ever sample_expenses ≠ Sql.MAX_ROWID
  ∧ ∃ i db' l,
      add_expense (201 # 2) "Food" "2024-03-01" (Some "lunch") sample_expenses
      = (Ok i, db')
      ∧ fetch_expenses None None None db' = (Ok l, db')
      ∧ mkExpense i (201 # 2) "Food" "2024-03-01" (Some "lunch") ∈ l
      ∧ (∀ r, r ∈ l → id r = i
              → r = mkExpense i (201 # 2) "Food" "2024-03-01" (Some "lunch"))
      ∧ i ∉ id <$> rows sample_expenses.
Proof.
  assert (largest_rowid_ever sample_expenses ≠ Sql.MAX_ROWID) as Hroom.
  { intros Hfull. vm_compute in Hfull. discriminate Hfull. }
  split; [done |].
  by apply (create_then_list sample_expenses (201 # 2) "Food" "2024-03-01"
              (Some "lunch")).
Defined.

(** ** Searching *)

Lemma append_nil_l (t : string) : "" +:+ t = t.
Proof. done. Qed.

Lemma append_cons (c : ascii) (s t : string) :
  String c s +:+ t = String c (s +:+ t).
Proof. done. Qed.


Lemma fold_case_append (s t : string) :
  fold_case (s +:+ t) = fold_case s +:+ fold_case t.
Proof.
  induction s as [| c s IH]; [done |].
  rewrite append_cons. simpl. by rewrite IH.
Qed.

Lemma fold_case_eq_nil (s : string) : fold_case s = "" ↔ s = "".
Proof. by destruct s. Qed.



(** *** LIKE, clause by clause *)

Lemma patternCompare_nul q t :
  Sql.patternCompare (String Sql.nul q) t = Sql.at_end t.
Proof. by destruct t. Qed.

Lemma patternCompare_all q t :
  Sql.patternCompare (String Sql.matchAll q) t
  = Sql.patternCompare q t
    || match t with
       | EmptyString => false
       | String c t' =>
           negb (Ascii.eqb c Sql.nul)
           && Sql.patternCompare (String Sql.matchAll q) t'
       end.
Proof. by destruct t. Qed.

Lemma patternCompare_char c q t :
  Ascii.eqb c Sql.nul = false →
  Ascii.eqb c Sql.matchAll = false →
  Sql.patternCompare (String c q) t
  = match t with
    | EmptyString => false
    | String c2 t' =>
        negb (Ascii.eqb c2 Sql.nul)
        && ((Ascii.eqb c Sql.matchOne
             || Ascii.eqb (Sql.sqlite3Tolower c) (Sql.sqlite3Tolower c2))
            && Sql.patternCompare q t')
    end.
Proof. intros Hnul Hc. simpl. by rewrite Hnul, Hc. Qed.


Lemma upto_nul_id s : has_nul s = false → upto_nul s = s.
Proof.
  induction s as [| c s IH]; [done |]. simpl.
  intros [Hc Hs]%orb_false_iff. by rewrite Hc, IH.
Qed.



Lemma tolower_facts c :
  Sql.sqlite3Tolower (Sql.sqlite3Tolower c) = Sql.sqlite3Tolower c
  ∧ Ascii.eqb (Sql.sqlite3Tolower c) Sql.matchAll = Ascii.eqb c Sql.matchAll
  ∧ Ascii.eqb (Sql.sqlite3Tolower c) Sql.matchOne = Ascii.eqb c Sql.matchOne
  ∧ Ascii.eqb (Sql.sqlite3Tolower c) Sql.nul = Ascii.eqb c Sql.nul.
Proof. by destruct c as [[] [] [] [] [] [] [] []]. Qed.

(** LIKE does not see the case of the ASCII letters of its pattern. *)
Lemma patternCompare_fold_case p t :
  Sql.patternCompare (fold_case p) t = Sql.patternCompare p t.
Proof.
  revert t. induction p as [| c p IH]; intros t; [done |].
  destruct (tolower_facts c) as (Hidem & Hall & Hone & Hnul).
  change (fold_case (String c p))
    with (String (Sql.sqlite3Tolower c) (fold_case p)).
  destruct (Ascii.eqb c Sql.nul) eqn:Hz.
  { apply Ascii.eqb_eq in Hz as ->.
    change (Sql.sqlite3Tolower Sql.nul) with Sql.nul.
    by rewrite !patternCompare_nul. }
  destruct (Ascii.eqb c Sql.matchAll) eqn:Hc.
  - apply Ascii.eqb_eq in Hc as ->.
    change (Sql.sqlite3Tolower Sql.matchAll) with Sql.matchAll.
    induction t as [| c2 t IHt].
    + by rewrite !patternCompare_all, IH.
    + rewrite (patternCompare_all (fold_case p)), (patternCompare_all p).
      by rewrite IH, IHt.
  - rewrite !patternCompare_char by congruence.
    destruct t as [| c2 t]; [done |]. by rewrite Hidem, Hone, IH.
Qed.

Lemma matches_search_spec s r :
  matches_search s r
  ↔ Sql.patternCompare ("%" +:+ s +:+ "%") (category r) = true
    ∨ ∃ n, note r = Some n ∧ Sql.patternCompare ("%" +:+ s +:+ "%") n = true.
Proof.
  unfold matches_search, search_clause, Sql.like.
  generalize ("%" +:+ s +:+ "%"). intros p.
  destruct (note r) as [n|];
    destruct (Sql.patternCompare p (category r)); simpl.
  - split; [by left | done].
  - destruct (Sql.patternCompare p n) eqn:Hn; simpl.
    + split; [| done]. intros _. right. by exists n.
    + split; [done |]. intros [? | (n' & [= <-] & Hn')]; congruence.
  - split; [by left | done].
  - split; [done |]. intros [? | (n' & ? & _)]; done.
Qed.

Lemma matches_search_fold_case s s' r :
  fold_case s' = fold_case s → matches_search s' r ↔ matches_search s r.
Proof.
  intros Hs. rewrite !matches_search_spec.
  assert (∀ t, Sql.patternCompare ("%" +:+ s' +:+ "%") t
               = Sql.patternCompare ("%" +:+ s +:+ "%") t) as Heq.
  { intros t. rewrite <- (patternCompare_fold_case ("%" +:+ s' +:+ "%")).
    rewrite <- (patternCompare_fold_case ("%" +:+ s +:+ "%")).
    by rewrite !fold_case_append, Hs. }
  by setoid_rewrite Heq.
Qed.

Lemma fetch_expenses_fold_case s s' start_date end_date db :
  fold_case s' = fold_case s →
  fetch_expenses (Some s') start_date end_date db
  = fetch_expenses (Some s) start_date end_date db.
Proof.
  intros Hs. rewrite !fetch_expenses_eq. do 3 f_equal.
  apply list_filter_iff. intros r. unfold selects. simpl.
  assert (s' = "" ↔ s = "") as Hnil.
  { by rewrite <- (fold_case_eq_nil s'), <- (fold_case_eq_nil s), Hs. }
  pose proof (matches_search_fold_case s s' r Hs).
  repeat case_decide; tauto.
Qed.




Example search_Food_food db :
  fetch_expenses (Some "Food") None None db
  = fetch_expenses (Some "food") None None db.
Proof. by apply fetch_expenses_fold_case. Qed.





(** ** The monthly summary *)

Lemma lookup_add_to_group c a c' groups :
  lookup_group c' (add_to_group c a groups)
  = if decide (c = c')
    then Some (Qplus (default 0%Q (lookup_group c groups)) a)
    else lookup_group c' groups.
Proof.
  induction groups as [| [k t] groups IH]; simpl.
  - by repeat case_decide.
  - repeat (case_decide; simpl; simplify_eq); try done.
    all: rewrite IH; by repeat case_decide.
Qed.

Lemma elem_of_add_to_group_keys k c a groups :
  k ∈ (add_to_group c a groups).*1 ↔ k = c ∨ k ∈ groups.*1.
Proof.
  induction groups as [| [k' t] groups IH]; simpl.
  - rewrite list_elem_of_singleton, elem_of_nil. tauto.
  - case_decide; simpl; rewrite !elem_of_cons; [subst; tauto |].
    rewrite IH. tauto.
Qed.

Lemma add_to_group_NoDup c a groups :
  NoDup groups.*1 → NoDup (add_to_group c a groups).*1.
Proof.
  induction groups as [| [k t] groups IH]; simpl.
  - intros _. apply NoDup_singleton.
  - rewrite NoDup_cons. intros [Hk Hnd]. case_decide; simpl.
    + by apply NoDup_cons.
    + apply NoDup_cons. split; [| by apply IH].
      rewrite elem_of_add_to_group_keys. intros [-> | ?]; done.
Qed.

Lemma sum_group_by_category_snoc rs r :
  sum_group_by_category (rs ++ [r])
  = add_to_group (category r) (amount r) (sum_group_by_category rs).
Proof. unfold sum_group_by_category. by rewrite foldl_app. Qed.

Lemma category_total_snoc c rs r :
  category_total c (rs ++ [r])
  = if decide (category r = c)
    then Some (Qplus (default 0%Q (category_total c rs)) (amount r))
    else category_total c rs.
Proof.
  assert (∀ g, sum_amounts (amount <$> g ++ [r])
               = Qplus (sum_amounts (amount <$> g)) (amount r)) as Hsnoc.
  { intros g. unfold sum_amounts. by rewrite fmap_app, foldl_app. }
  unfold category_total. rewrite filter_app.
  case_decide as Hc.
  - rewrite filter_cons_True, filter_nil by done.
    destruct (filter (λ r0, category r0 = c) rs) as [| x g]; [done |].
    simpl. f_equal. apply (Hsnoc (x :: g)).
  - rewrite filter_cons_False, filter_nil, app_nil_r by done. done.
Qed.

Lemma sum_group_by_category_lookup c rs :
  lookup_group c (sum_group_by_category rs) = category_total c rs.
Proof.
  induction rs as [| r rs IH] using rev_ind; [done |].
  rewrite sum_group_by_category_snoc, category_total_snoc, lookup_add_to_group.
  case_decide; [| done]. subst c. by rewrite IH.
Qed.

Lemma sum_group_by_category_NoDup rs : NoDup (sum_group_by_category rs).*1.
Proof.
  induction rs as [| r rs IH] using rev_ind; [constructor |].
  rewrite sum_group_by_category_snoc. by apply add_to_group_NoDup.
Qed.

Lemma lookup_group_None c (groups : list (string * Q)) :
  c ∉ groups.*1 → lookup_group c groups = None.
Proof.
  induction groups as [| [k t] groups IH]; simpl; [done |].
  rewrite not_elem_of_cons. intros [Hk Hc]. rewrite decide_False by done. auto.
Qed.

Lemma dict_lookup (groups : list (string * Q)) c :
  NoDup groups.*1 → Py.dict groups !! c = lookup_group c groups.
Proof.
  unfold Py.dict.
  assert (∀ m : gmap string Q, NoDup groups.*1 →
            foldl (λ m kv, <[kv.1 := kv.2]> m) m groups !! c
            = match lookup_group c groups with
              | Some t => Some t
              | None => m !! c
              end) as Hgen.
  { induction groups as [| [k t] groups IH]; intros m; simpl; [done |].
    rewrite NoDup_cons. intros [Hk Hnd]. rewrite IH by done. case_decide.
    - subst k. rewrite lookup_group_None by done. by rewrite lookup_insert_eq.
    - by rewrite lookup_insert_ne. }
  intros Hnd. rewrite Hgen by done. by destruct (lookup_group c groups).
Qed.

(** What the code selects is the month. *)
Lemma monthly_summary_eq year month db :
  monthly_summary year month db
  = (Ok (Py.dict (sum_group_by_category
                    (filter (in_month year month) (rows db)))), db).
Proof.
  unfold monthly_summary. do 4 f_equal.
  apply list_filter_iff. intros r.
  rewrite where_keeps_and, where_keeps_ge, where_keeps_lt.
  unfold in_month, month_start, month_end, first_of_month.
  destruct (Z.eqb_spec month 12) as [-> | Hm].
  - rewrite decide_True by done. done.
  - by rewrite decide_False.
Qed.

(** C1. The monthly summary maps a category to the sum of the amounts of the
    records of that category whose date is in the month, as the half-open
    interval from its first day to the first day of the next month (the first
    of January of the next year for December); a category is a key exactly
    when a record of the category has its date in the interval, and the
    mapping is empty when no record has. *)
Theorem monthly_summary_spec db year month :
  ∃ m, monthly_summary year month db = (Ok m, db)
       ∧ (∀ c, m !! c
               = category_total c (filter (in_month year month) (rows db)))
       ∧ (∀ c, is_Some (m !! c)
               ↔ ∃ r, r ∈ rows db ∧ in_month year month r ∧ category r = c)
       ∧ ((∀ r, r ∈ rows db → ¬ in_month year month r) → m = ∅).
Proof.
  eexists. split; [apply monthly_summary_eq |].
  assert (∀ c, Py.dict (sum_group_by_category
                          (filter (in_month year month) (rows db))) !! c
               = category_total c (filter (in_month year month) (rows db)))
    as Hlookup.
  { intros c. rewrite dict_lookup by apply sum_group_by_category_NoDup.
    apply sum_group_by_category_lookup. }
  split; [done |].
  assert (∀ c, is_Some (category_total c (filter (in_month year month) (rows db)))
               ↔ ∃ r, r ∈ rows db ∧ in_month year month r ∧ category r = c)
    as Hkey.
  { intros c. unfold category_total.
    destruct (filter (λ r, category r = c) _) as [| x g] eqn:Hg.
    - split; [by intros [? ?] |]. intros (r & Hr & Hin & Hc).
      assert (r ∈ filter (λ r, category r = c)
                    (filter (in_month year month) (rows db))) as Hmem.
      { by rewrite !list_elem_of_filter. }
      rewrite Hg in Hmem. by apply elem_of_nil in Hmem.
    - split; [| by eauto]. intros _.
      assert (x ∈ filter (λ r, category r = c)
                    (filter (in_month year month) (rows db))) as Hmem.
      { rewrite Hg. apply list_elem_of_here. }
      rewrite !list_elem_of_filter in Hmem. exists x. tauto. }
  split.
  - intros c. by rewrite Hlookup.
  - intros Hnone. apply map_eq. intros c. rewrite lookup_empty.
    apply eq_None_not_Some. rewrite Hlookup, Hkey.
    intros (r & Hr & Hin & _). by apply (Hnone r).
Qed.

Lemma monthly_summary_spec_witness :
  (∀ r, r ∈ rows scenario → ¬ in_month 2023 1 r)
  ∧ (monthly_summary 2023 1 scenario).1 = Ok ∅
  ∧ ∃ m, (monthly_summary 2024 3 scenario).1 = Ok m
         ∧ m !! "A" = Some (30 # 1)%Q ∧ m !! "B" = None.
Proof.
  assert (∀ r, r ∈ rows scenario → ¬ in_month 2023 1 r) as Hnone.
  { apply (Forall_forall (λ r, ¬ in_month 2023 1 r)). compute_done. }
  split; [exact Hnone |]. split.
  - destruct (monthly_summary_spec scenario 2023 1) as (m & -> & _ & _ & Hempty).
    simpl. by rewrite (Hempty Hnone).
  - destruct (monthly_summary_spec scenario 2024 3) as (m & -> & Hm & _).
    exists m. split; [done |]. by rewrite !Hm.
Defined.

Example month_intervals :
  month_start 2024 2 = "2024-02-01" ∧ month_end 2024 2 = "2024-03-01"
  ∧ month_start 2024 12 = "2024-12-01" ∧ month_end 2024 12 = "2025-01-01".
Proof. vm_compute. done. Qed.

(** ** The month of an ISO date

    For dates in the format [YYYY-MM-DD] the order of strings is the order of
    the calendar, and the interval of [monthly_summary] holds the dates of
    the month and no other. *)

Lemma compare_refl (x : string) : String.compare x x = Eq.
Proof.
  pose proof (String.compare_antisym x x) as H.
  by destruct (String.compare x x).
Qed.

Lemma le_compare x y : String.le x y ↔ String.compare x y ≠ Gt.
Proof.
  unfold String.le, String.leb.
  destruct (String.compare x y); simpl; intuition congruence.
Qed.

Lemma strict_compare x y : strict String.le x y ↔ String.compare x y = Lt.
Proof.
  unfold strict. rewrite !le_compare, (String.compare_antisym y x).
  destruct (String.compare x y); simpl; intuition congruence.
Qed.

Lemma eq_compare x y : x = y ↔ String.compare x y = Eq.
Proof.
  split; [intros ->; apply compare_refl | apply String.compare_eq_iff].
Qed.

(** Strings that start with fields of the same length are compared field by
    field. *)
Lemma compare_append p1 p2 s1 s2 :
  String.length p1 = String.length p2 →
  String.compare (p1 +:+ s1) (p2 +:+ s2)
  = match String.compare p1 p2 with
    | Eq => String.compare s1 s2
    | c => c
    end.
Proof.
  revert p2. induction p1 as [| a p1 IH]; intros [| b p2] Hlen; try done.
  rewrite !append_cons. simpl in *.
  destruct (Ascii.compare a b); [| done..]. apply IH. congruence.
Qed.

Lemma le_append p1 p2 s1 s2 :
  String.length p1 = String.length p2 →
  String.le (p1 +:+ s1) (p2 +:+ s2)
  ↔ strict String.le p1 p2 ∨ (p1 = p2 ∧ String.le s1 s2).
Proof.
  intros Hlen. rewrite !le_compare, strict_compare, eq_compare.
  rewrite compare_append by done.
  destruct (String.compare p1 p2); intuition congruence.
Qed.

Section FixedWidth.

Variables (w : nat) (n : Z).
Hypothesis Hcheck : fixed_width_upto w n = true.

Let checked a :
  0 ≤ a < n →
  String.length (Py.format_0d w a) = w
  ∧ String.length (Py.format_0d w (a + 1)) = w
  ∧ strict String.le (Py.format_0d w a) (Py.format_0d w (a + 1)).
Proof.
  intros Ha. unfold fixed_width_upto in Hcheck.
  rewrite forallb_forall in Hcheck.
  specialize (Hcheck a). rewrite <- list_elem_of_In, elem_of_seqZ in Hcheck.
  apply Hcheck in Ha as [[Hl1 Hl2]%andb_true_iff Hlt]%andb_true_iff.
  by rewrite <- text_lt_strict, <- !Nat.eqb_eq.
Qed.

Lemma format_0d_length a : 0 ≤ a ≤ n → 0 < n → String.length (Py.format_0d w a) = w.
Proof.
  intros Ha Hn. destruct (decide (a = n)) as [-> | Hne].
  - destruct (checked (n - 1)) as (_ & Hl & _); [lia |].
    by replace (n - 1 + 1) with n in Hl by lia.
  - destruct (checked a) as (Hl & _); [lia | done].
Qed.

Lemma format_0d_lt a b :
  0 ≤ a → a < b → b ≤ n →
  strict String.le (Py.format_0d w a) (Py.format_0d w b).
Proof.
  intros Ha Hab Hb. replace b with (a + 1 + (b - a - 1)) in * by lia.
  assert (0 ≤ b - a - 1) as Hk by lia. revert Hk Hb.
  generalize (b - a - 1). clear Hab b. intros k Hk. pattern k.
  apply natlike_ind; [| | done].
  - rewrite Z.add_0_r. intros Hb. apply checked. lia.
  - intros j Hj IH Hb. trans (Py.format_0d w (a + 1 + j)); [apply IH; lia |].
    replace (a + 1 + Z.succ j) with (a + 1 + j + 1) by lia. apply checked. lia.
Qed.

Lemma format_0d_le_iff a b :
  0 ≤ a ≤ n → 0 ≤ b ≤ n →
  String.le (Py.format_0d w a) (Py.format_0d w b) ↔ a ≤ b.
Proof.
  intros Ha Hb. split.
  - intros Hle. destruct (decide (a ≤ b)) as [| Hgt]; [done |].
    destruct (format_0d_lt b a) as [_ Hn]; [lia.. |]. done.
  - intros Hab. destruct (decide (a = b)) as [-> | Hne]; [done |].
    apply format_0d_lt; lia.
Qed.

Lemma format_0d_strict_iff a b :
  0 ≤ a ≤ n → 0 ≤ b ≤ n →
  strict String.le (Py.format_0d w a) (Py.format_0d w b) ↔ a < b.
Proof.
  intros Ha Hb. unfold strict. rewrite !format_0d_le_iff by done. lia.
Qed.

Lemma format_0d_eq_iff a b :
  0 ≤ a ≤ n → 0 ≤ b ≤ n →
  Py.format_0d w a = Py.format_0d w b ↔ a = b.
Proof.
  intros Ha Hb. split; [| by intros ->]. intros Heq.
  assert (a ≤ b) by (apply format_0d_le_iff; [done.. | by rewrite Heq]).
  assert (b ≤ a) by (apply format_0d_le_iff; [done.. | by rewrite Heq]).
  lia.
Qed.

End FixedWidth.

Lemma four_digits : fixed_width_upto 4 9999 = true.
Proof. by vm_compute. Qed.

Lemma two_digits : fixed_width_upto 2 99 = true.
Proof. by vm_compute. Qed.

(** ISO dates are ordered as the dates they stand for. *)
Lemma iso_date_le y1 m1 d1 y2 m2 d2 :
  0 ≤ y1 ≤ 9999 → 0 ≤ m1 ≤ 99 → 0 ≤ d1 ≤ 99 →
  0 ≤ y2 ≤ 9999 → 0 ≤ m2 ≤ 99 → 0 ≤ d2 ≤ 99 →
  String.le (iso_date y1 m1 d1) (iso_date y2 m2 d2)
  ↔ y1 < y2 ∨ (y1 = y2 ∧ (m1 < m2 ∨ (m1 = m2 ∧ d1 ≤ d2))).
Proof.
  intros Hy1 Hm1 Hd1 Hy2 Hm2 Hd2. unfold iso_date.
  pose proof (format_0d_length 4 9999 four_digits) as L4.
  pose proof (format_0d_length 2 99 two_digits) as L2.
  rewrite le_append by (rewrite !L4; [done | lia..]).
  rewrite (le_append "-" "-") by done.
  rewrite le_append by (rewrite !L2; [done | lia..]).
  rewrite (le_append "-" "-") by done.
  rewrite !(format_0d_strict_iff 4 9999 four_digits) by done.
  rewrite !(format_0d_eq_iff 4 9999 four_digits) by done.
  rewrite !(format_0d_strict_iff 2 99 two_digits) by done.
  rewrite !(format_0d_eq_iff 2 99 two_digits) by done.
  rewrite !(format_0d_le_iff 2 99 two_digits) by done.
  assert (¬ strict String.le "-" "-") by (by intros [_ []]).
  tauto.
Qed.

Lemma first_of_month_iso year month : first_of_month year month = iso_date year month 1.
Proof. done. Qed.

(** For a year from 0 to 9998 and a month from 1 to 12, an ISO date is in the
    interval of the month exactly when it is a date of that year and month. *)
Lemma in_month_iso year month r y m d :
  0 ≤ year ≤ 9998 → 1 ≤ month ≤ 12 →
  0 ≤ y ≤ 9999 → 1 ≤ m ≤ 12 → 1 ≤ d ≤ 99 →
  date r = iso_date y m d →
  in_month year month r ↔ y = year ∧ m = month.
Proof.
  intros Hyear Hmonth Hy Hm Hd Hdate.
  unfold in_month, strict, month_start, month_end. rewrite Hdate.
  case_decide; rewrite !first_of_month_iso, !iso_date_le by lia; lia.
Qed.

(** In December of the year 9999 the next year has five digits, and the end
    of the interval is below its start. *)
Example december_9999 :
  month_start 9999 12 = "9999-12-01" ∧ month_end 9999 12 = "10000-01-01"
  ∧ ¬ in_month 9999 12 (mkExpense 1 (1 # 1) "A" "9999-12-15" None).
Proof. split; [done |]. split; [done |]. compute_done. Qed.

(** * Beyond the listed properties *)

(** ** Filters and the order of a listing *)

Lemma filter_permutation {A} (P : A → Prop) `{∀ x, Decision (P x)}
    (l1 l2 : list A) :
  l1 ≡ₚ l2 → filter P l1 ≡ₚ filter P l2.
Proof.
  induction 1 as [| x l1 l2 _ IH | x y l | l1 l2 l3 _ IH1 _ IH2].
  - done.
  - rewrite !filter_cons. by case_decide; rewrite IH.
  - rewrite !filter_cons. repeat case_decide; try done. apply perm_swap.
  - by trans (filter P l2).
Qed.

Lemma filter_strongly_sorted {A} (R : relation A) (P : A → Prop)
    `{∀ x, Decision (P x)} (l : list A) :
  StronglySorted R l → StronglySorted R (filter P l).
Proof.
  induction 1 as [| x l _ IH Hx]; [constructor |].
  rewrite filter_cons. case_decide; [| done].
  constructor; [done |]. rewrite Forall_forall in Hx. apply Forall_forall.
  intros y [_ Hy]%list_elem_of_filter. by apply Hx.
Qed.

(** On a table with distinct ids, filtering the rows and then sorting them is
    sorting them and then filtering. *)
Lemma order_by_filter (P : Expense → Prop) `{∀ r, Decision (P r)}
    (rs : list Expense) :
  NoDup (id <$> rs) →
  order_by_date_desc_id_desc (filter P rs)
  = filter P (order_by_date_desc_id_desc rs).
Proof.
  intros Hnd. symmetry. apply order_by_unique.
  - eapply sublist_NoDup; [exact Hnd |]. apply fmap_sublist, sublist_filter.
  - apply filter_permutation, order_by_permutation.
  - apply filter_strongly_sorted, order_by_sorted.
Qed.

(** X1. On a consistent store a listing with filters is the listing without
    filters from which the records that fail a filter are removed: the
    records that stay keep their order. *)
Theorem filtered_listing_is_sublist db search start_date end_date :
  consistent db →
  ∃ l_all l,
    fetch_expenses None None None db = (Ok l_all, db)
    ∧ fetch_expenses search start_date end_date db = (Ok l, db)
    ∧ l = filter (selects search start_date end_date) l_all
    ∧ l `sublist_of` l_all.
Proof.
  intros [Hnd _]. do 2 eexists.
  split; [apply fetch_expenses_eq |]. split; [apply fetch_expenses_eq |].
  rewrite (filter_all (selects None None None)) by done.
  rewrite <- order_by_filter by done.
  split; [done |]. rewrite order_by_filter by done. apply sublist_filter.
Qed.

Lemma filtered_listing_is_sublist_witness :
  consistent scenario
  ∧ ∃ l_all l,
      fetch_expenses None None None scenario = (Ok l_all, scenario)
      ∧ fetch_expenses (Some "a") (Some "2024-03-02") None scenario
        = (Ok l, scenario)
      ∧ l = filter (selects (Some "a") (Some "2024-03-02") None) l_all
      ∧ l `sublist_of` l_all.
Proof.
  assert (consistent scenario) as Hc by compute_done.
  split; [done |].
  by apply (filtered_listing_is_sublist scenario (Some "a") (Some "2024-03-02")
              None).
Defined.

(** ** Updating and deleting a record that is there *)

Lemma elem_of_updated_rows (expense_id : Z) (new : Expense)
    (rs : list Expense) r' :
  r' ∈ (λ r, if decide (id r = expense_id) then new else r) <$> rs
  ↔ (r' = new ∧ expense_id ∈ id <$> rs) ∨ (r' ∈ rs ∧ id r' ≠ expense_id).
Proof.
  rewrite !list_elem_of_fmap. split.
  - intros (r & -> & Hr). case_decide as Hid; [left | by right].
    split; [done |]. exists r. by rewrite Hid.
  - intros [[-> (r & -> & Hr)] | [Hr Hid]].
    + exists r. by rewrite decide_True.
    + exists r'. by rewrite decide_False.
Qed.

(** X2. An update on the id of a record of the store (an id that fits in 64
    bits, as the ids of a table do) replaces the amount, category, date and
    note of the record of that id and nothing else: the listing afterwards
    holds the record with the new values and the records with another id as
    they were, the ids in the table and the counter are the same, and no
    record is added or removed. *)
Theorem update_existing db expense_id a c d n :
  Py.int64 expense_id = true →
  expense_id ∈ id <$> rows db →
  ∃ db' l,
    update_expense expense_id a c d n db = (Ok (), db')
    ∧ fetch_expenses None None None db' = (Ok l, db')
    ∧ (∀ r, r ∈ l ↔
         r = mkExpense expense_id a c d n
         ∨ (r ∈ rows db ∧ id r ≠ expense_id))
    ∧ id <$> rows db' = id <$> rows db
    ∧ seq db' = seq db
    ∧ length l = length (rows db).
Proof.
  intros Hfits Hid. do 2 eexists.
  split; [by apply update_expense_int64 |].
  split; [apply fetch_expenses_eq |]. simpl.
  rewrite (filter_all (selects None None None)) by done.
  split; [| split; [| split; [done |]]].
  - intros r. rewrite order_by_permutation.
    assert (∀ rs : list Expense,
              (λ r0, if decide (id r0 = expense_id)
                     then mkExpense (id r0) a c d n else r0) <$> rs
              = (λ r0, if decide (id r0 = expense_id)
                       then mkExpense expense_id a c d n else r0) <$> rs)
      as ->.
    { intros rs. apply list_fmap_ext. intros _ r0 _. by case_decide; subst. }
    rewrite elem_of_updated_rows. tauto.
  - by apply update_keeps_ids.
  - by rewrite order_by_permutation, length_fmap.
Qed.

Lemma update_existing_witness :
  (2 ∈ id <$> rows scenario)
  ∧ ∃ db' l,
      update_expense 2 (25 # 1) "B" "2024-03-05" (Some "tea") scenario
      = (Ok (), db')
      ∧ fetch_expenses None None None db' = (Ok l, db')
      ∧ (∀ r, r ∈ l ↔
           r = mkExpense 2 (25 # 1) "B" "2024-03-05" (Some "tea")
           ∨ (r ∈ rows scenario ∧ id r ≠ 2))
      ∧ id <$> rows db' = id <$> rows scenario
      ∧ seq db' = seq scenario
      ∧ length l = length (rows scenario).
Proof.
  assert (2 ∈ id <$> rows scenario) as Hin by compute_done.
  split; [done |].
  by apply (update_existing scenario 2 (25 # 1) "B" "2024-03-05" (Some "tea")
              eq_refl).
Defined.

Lemma length_delete_existing (expense_id : Z) (rs : list Expense) :
  NoDup (id <$> rs) →
  expense_id ∈ id <$> rs →
  S (length (filter (λ r, id r ≠ expense_id) rs)) = length rs.
Proof.
  induction rs as [| r rs IH]; [by intros _ ?%elem_of_nil |].
  rewrite fmap_cons, NoDup_cons, elem_of_cons. intros [Hr Hnd] Hin.
  destruct (decide (id r = expense_id)) as [Heq | Hne].
  - rewrite filter_cons_False by (by intros ?).
    rewrite delete_rows_missing by (by rewrite <- Heq). done.
  - rewrite filter_cons_True by done. simpl. f_equal. apply IH; [done |].
    by destruct Hin as [-> | ?].
Qed.

(** X3. A delete on the id of a record of a consistent store (an id that
    fits in 64 bits, as the ids of a table do) removes that record and no
    other: the listing afterwards is the listing before without the record of
    that id, in the same order and shorter by one, and the counter of ids is
    not moved back. *)
Theorem delete_existing db expense_id :
  consistent db →
  Py.int64 expense_id = true →
  expense_id ∈ id <$> rows db →
  ∃ db' l_before l_after,
    delete_expense expense_id db = (Ok (), db')
    ∧ fetch_expenses None None None db = (Ok l_before, db)
    ∧ fetch_expenses None None None db' = (Ok l_after, db')
    ∧ l_after = filter (λ r, id r ≠ expense_id) l_before
    ∧ S (length l_after) = length l_before
    ∧ (expense_id ∉ id <$> l_after)
    ∧ seq db' = seq db.
Proof.
  intros [Hnd _] Hfits Hid. do 3 eexists.
  split; [by apply delete_expense_int64 |].
  split; [apply fetch_expenses_eq |]. split; [apply fetch_expenses_eq |].
  simpl. rewrite !(filter_all (selects None None None)) by done.
  rewrite <- order_by_filter by done.
  split; [done |]. split; [| split; [| done]].
  - rewrite !order_by_permutation. by apply length_delete_existing.
  - rewrite list_elem_of_fmap. intros (r & -> & Hr).
    rewrite order_by_permutation in Hr.
    by apply list_elem_of_filter in Hr as [Hne _].
Qed.

Lemma delete_existing_witness :
  consistent scenario ∧ (1 ∈ id <$> rows scenario)
  ∧ ∃ db' l_before l_after,
      delete_expense 1 scenario = (Ok (), db')
      ∧ fetch_expenses None None None scenario = (Ok l_before, scenario)
      ∧ fetch_expenses None None None db' = (Ok l_after, db')
      ∧ l_after = filter (λ r, id r ≠ 1) l_before
      ∧ S (length l_after) = length l_before
      ∧ (1 ∉ id <$> l_after)
      ∧ seq db' = seq scenario.
Proof.
  assert (consistent scenario) as Hc by compute_done.
  assert (1 ∈ id <$> rows scenario) as Hin by compute_done.
  split; [done |]. split; [done |].
  by apply (delete_existing scenario 1 Hc eq_refl).
Defined.

(** X4. Updates and deletes compose as writes to a table keyed by id: of two
    updates of one id the later one stands, a delete after an update is the
    delete alone, and updates or deletes of different ids can be made in
    either order. *)
Theorem updates_and_deletes_compose db i j a1 c1 d1 n1 a2 c2 d2 n2 :
  (update_expense i a2 c2 d2 n2 (update_expense i a1 c1 d1 n1 db).2).2
  = (update_expense i a2 c2 d2 n2 db).2
  ∧ (delete_expense i (update_expense i a1 c1 d1 n1 db).2).2
    = (delete_expense i db).2
  ∧ (delete_expense i (delete_expense j db).2).2
    = (delete_expense j (delete_expense i db).2).2
  ∧ (i ≠ j →
     (update_expense i a1 c1 d1 n1 (update_expense j a2 c2 d2 n2 db).2).2
     = (update_expense j a2 c2 d2 n2 (update_expense i a1 c1 d1 n1 db).2).2
     ∧ (delete_expense i (update_expense j a2 c2 d2 n2 db).2).2
       = (update_expense j a2 c2 d2 n2 (delete_expense i db).2).2).
Proof.
  unfold update_expense, delete_expense.
  split; [| split; [| split]].
  - destruct (Py.int64 i); [| done]. simpl.
    f_equal. rewrite <- list_fmap_compose. apply list_fmap_ext.
    intros _ r _. simpl. repeat case_decide; simpl in *; done.
  - destruct (Py.int64 i); [| done]. simpl.
    f_equal. induction (rows db) as [| r rs IH]; [done |].
    rewrite fmap_cons, !filter_cons, IH.
    repeat case_decide; simpl in *; done.
  - destruct (Py.int64 i), (Py.int64 j); simpl; try done.
    f_equal. rewrite !list_filter_filter. apply list_filter_iff. tauto.
  - intros Hij. destruct (Py.int64 i), (Py.int64 j); simpl; try done.
    split; f_equal.
    + rewrite <- !list_fmap_compose. apply list_fmap_ext.
      intros _ r _. simpl. repeat (case_decide; simpl in *); congruence.
    + induction (rows db) as [| r rs IH]; [done |].
      rewrite fmap_cons, !filter_cons, IH.
      repeat (case_decide; simpl in *); try done; congruence.
Qed.

Lemma updates_and_deletes_compose_witness :
  1 ≠ 2
  ∧ (update_expense 1 (1 # 1) "X" "2024-01-01" None
       (update_expense 2 (2 # 1) "Y" "2024-01-02" None scenario).2).2
    = (update_expense 2 (2 # 1) "Y" "2024-01-02" None
         (update_expense 1 (1 # 1) "X" "2024-01-01" None scenario).2).2.
Proof.
  split; [done |].
  destruct (updates_and_deletes_compose scenario 1 2
              (1 # 1) "X" "2024-01-01" None (2 # 1) "Y" "2024-01-02" None)
    as (_ & _ & _ & Hne).
  by destruct (Hne ltac:(done)) as [Hswap _].
Defined.

(** ** Creating and the monthly summary *)

Lemma monthly_summary_lookup year month (rs : list Expense) c :
  Py.dict (sum_group_by_category (filter (in_month year month) rs)) !! c
  = category_total c (filter (in_month year month) rs).
Proof.
  rewrite dict_lookup by apply sum_group_by_category_NoDup.
  apply sum_group_by_category_lookup.
Qed.

(** X5. A create changes the summary of the months whose interval holds the
    date of the new record, and of no other month: there the total of the
    category of the record grows by its amount (the category becomes a key if
    it was none), and every other entry stays. *)
Theorem create_adds_to_summary db a c d n i db' year month :
  add_expense a c d n db = (Ok i, db') →
  ∃ m m',
    monthly_summary year month db = (Ok m, db)
    ∧ monthly_summary year month db' = (Ok m', db')
    ∧ (in_month year month (mkExpense i a c d n) →
       m' = <[c := Qplus (default 0%Q (m !! c)) a]> m)
    ∧ (¬ in_month year month (mkExpense i a c d n) → m' = m).
Proof.
  intros [_ ->]%add_expense_Ok. do 2 eexists.
  split; [apply monthly_summary_eq |]. split; [apply monthly_summary_eq |].
  simpl. rewrite filter_app. split; intros Hin.
  - rewrite filter_cons_True, filter_nil by done.
    apply map_eq. intros k.
    rewrite dict_lookup by apply sum_group_by_category_NoDup.
    rewrite sum_group_by_category_lookup, category_total_snoc. simpl.
    rewrite monthly_summary_lookup. case_decide as Hk.
    + subst k. by rewrite lookup_insert_eq.
    + by rewrite lookup_insert_ne, monthly_summary_lookup.
  - by rewrite filter_cons_False, filter_nil, app_nil_r.
Qed.

Lemma create_adds_to_summary_witness :
  add_expense (5 # 1) "B" "2024-03-09" None scenario
  = (Ok 4, {| rows := rows scenario ++ [mkExpense 4 (5 # 1) "B" "2024-03-09" None];
              seq := 4 |})
  ∧ in_month 2024 3 (mkExpense 4 (5 # 1) "B" "2024-03-09" None)
  ∧ ¬ in_month 2024 2 (mkExpense 4 (5 # 1) "B" "2024-03-09" None)
  ∧ ∃ m m',
      monthly_summary 2024 3 scenario = (Ok m, scenario)
      ∧ (monthly_summary 2024 3
           {| rows := rows scenario ++ [mkExpense 4 (5 # 1) "B" "2024-03-09" None];
              seq := 4 |}).1 = Ok m'
      ∧ m' = <[ "B" := Qplus (default 0%Q (m !! "B")) (5 # 1) ]> m.
Proof.
  assert (in_month 2024 3 (mkExpense 4 (5 # 1) "B" "2024-03-09" None)) as Hin
    by compute_done.
  split; [reflexivity |]. split; [done |]. split; [compute_done |].
  destruct (create_adds_to_summary scenario (5 # 1) "B" "2024-03-09" None 4
              {| rows := rows scenario
                         ++ [mkExpense 4 (5 # 1) "B" "2024-03-09" None];
                 seq := 4 |}
              2024 3 eq_refl) as (m & m' & Hm & Hm' & Hadd & _).
  exists m, m'. split; [done |]. split; [by rewrite Hm' |]. by apply Hadd.
Defined.

(** ** Dates that are not padded *)

Lemma strict_append p1 p2 s1 s2 :
  String.length p1 = String.length p2 →
  strict String.le (p1 +:+ s1) (p2 +:+ s2)
  ↔ strict String.le p1 p2 ∨ (p1 = p2 ∧ strict String.le s1 s2).
Proof.
  intros Hlen. rewrite !strict_compare, eq_compare.
  rewrite compare_append by done.
  destruct (String.compare p1 p2); intuition congruence.
Qed.

Lemma le_same_prefix p s1 s2 :
  String.le (p +:+ s1) (p +:+ s2) ↔ String.le s1 s2.
Proof.
  rewrite le_append by done. split; [| by right].
  intros [[_ Hn] | [_ H]]; [by destruct Hn | done].
Qed.

Lemma strict_same_prefix p s1 s2 :
  strict String.le (p +:+ s1) (p +:+ s2) ↔ strict String.le s1 s2.
Proof.
  rewrite strict_append by done. split; [| by right].
  intros [[_ Hn] | [_ H]]; [by destruct Hn | done].
Qed.

Lemma category_total_is_Some c (rs : list Expense) :
  is_Some (category_total c rs) ↔ ∃ r, r ∈ rs ∧ category r = c.
Proof.
  unfold category_total.
  destruct (filter (λ r, category r = c) rs) as [| x g] eqn:Hg.
  - split; [by intros [? ?] |]. intros (r & Hr & Hc).
    assert (r ∈ filter (λ r, category r = c) rs) as Hmem
      by by rewrite list_elem_of_filter.
    rewrite Hg in Hmem. by apply elem_of_nil in Hmem.
  - split; [| by eauto]. intros _.
    assert (x ∈ filter (λ r, category r = c) rs) as Hmem
      by (rewrite Hg; apply list_elem_of_here).
    rewrite list_elem_of_filter in Hmem. exists x. tauto.
Qed.

Ltac eval_compare :=
  repeat match goal with
         | |- context [String.compare ?a ?b] =>
             let v := eval vm_compute in (String.compare a b) in
             progress change (String.compare a b) with v
         end.

(** Where the intervals of the months put a date with a one-digit month:
    January in September, the other months in December. *)
Lemma in_month_unpadded year m rest r month :
  date r = unpadded_date year m rest →
  0 ≤ year ≤ 9998 → 1 ≤ m ≤ 9 → 1 ≤ month ≤ 12 →
  in_month year month r ↔ (m = 1 ∧ month = 9) ∨ (2 ≤ m ∧ month = 12).
Proof.
  intros Hdate Hyear Hm Hmonth.
  unfold in_month, month_start, month_end, first_of_month, unpadded_date in *.
  rewrite Hdate. rewrite (le_same_prefix (Py.format_0d 4 year)).
  rewrite (le_same_prefix "-").
  assert (m = 1 ∨ m = 2 ∨ m = 3 ∨ m = 4 ∨ m = 5 ∨ m = 6 ∨ m = 7 ∨ m = 8
          ∨ m = 9) as Hcases by lia.
  assert (month = 1 ∨ month = 2 ∨ month = 3 ∨ month = 4 ∨ month = 5
          ∨ month = 6 ∨ month = 7 ∨ month = 8 ∨ month = 9 ∨ month = 10
          ∨ month = 11 ∨ month = 12) as Hmonths by lia.
  case_decide as H12.
  - subst month. rewrite strict_append; last first.
    { rewrite !(format_0d_length 4 9999 four_digits); [done | lia..]. }
    rewrite (format_0d_strict_iff 4 9999 four_digits) by lia.
    rewrite le_compare. clear Hmonths Hmonth.
    decompose [or] Hcases; subst m; eval_compare;
      (split;
       [ intros [H1 _]; first [by destruct H1 | right; split; [lia | done]]
       | intros [[? ?] | [? _]]; first [lia | split; [done | left; lia]] ]).
  - rewrite (strict_same_prefix (Py.format_0d 4 year)).
    rewrite (strict_same_prefix "-"). rewrite le_compare, strict_compare.
    decompose [or] Hcases; subst m; decompose [or] Hmonths; subst month;
      try done; eval_compare;
      (split;
       [ intros [H1 H2];
         first [discriminate H2 | by destruct H1 | by left]
       | intros [[? ?] | [? ?]]; first [lia | done] ]).
Qed.

(** X6. A record whose date is written with a one-digit month, as in
    [2024-9-5], is not counted in the summary of its month: the summary of
    that month has the category of the record only if another record brings
    it, while the summary of December of the year (of September for a date in
    January) has it. *)
Theorem unpadded_month_misfiled db r year m rest :
  r ∈ rows db →
  date r = unpadded_date year m rest →
  0 ≤ year ≤ 9998 →
  1 ≤ m ≤ 9 →
  ∃ own other,
    monthly_summary year m db = (Ok own, db)
    ∧ monthly_summary year (if decide (m = 1) then 9 else 12) db
      = (Ok other, db)
    ∧ (is_Some (own !! category r) →
       ∃ r', r' ∈ rows db ∧ r' ≠ r ∧ category r' = category r
             ∧ in_month year m r')
    ∧ is_Some (other !! category r).
Proof.
  intros Hr Hdate Hyear Hm. do 2 eexists.
  split; [apply monthly_summary_eq |]. split; [apply monthly_summary_eq |].
  rewrite !monthly_summary_lookup, !category_total_is_Some. split.
  - intros (r' & [Hin Hr']%list_elem_of_filter & Hc).
    exists r'. split; [done |]. split; [| done]. intros ->.
    pose proof (in_month_unpadded year m rest r m Hdate Hyear Hm) as Hiff.
    apply Hiff in Hin; lia.
  - exists r. split; [| done]. apply list_elem_of_filter. split; [| done].
    pose proof (in_month_unpadded year m rest r
                  (if decide (m = 1) then 9 else 12) Hdate Hyear Hm) as Hiff.
    apply Hiff; case_decide; lia.
Qed.

Lemma unpadded_month_misfiled_witness :
  ∃ own other,
    monthly_summary 2024 9
      {| rows := [mkExpense 1 (40 # 1) "Food" "2024-9-5" None]; seq := 1 |}
    = (Ok own,
       {| rows := [mkExpense 1 (40 # 1) "Food" "2024-9-5" None]; seq := 1 |})
    ∧ monthly_summary 2024 12
        {| rows := [mkExpense 1 (40 # 1) "Food" "2024-9-5" None]; seq := 1 |}
      = (Ok other,
         {| rows := [mkExpense 1 (40 # 1) "Food" "2024-9-5" None]; seq := 1 |})
    ∧ own !! "Food" = None
    ∧ is_Some (other !! "Food").
Proof.
  destruct (unpadded_month_misfiled
              {| rows := [mkExpense 1 (40 # 1) "Food" "2024-9-5" None];
                 seq := 1 |}
              (mkExpense 1 (40 # 1) "Food" "2024-9-5" None) 2024 9 "5")
    as (own & other & Hown & Hother & Honly & Hdec);
    [apply list_elem_of_here | reflexivity | lia | lia |].
  exists own, other. split; [done |]. split; [done |]. split; [| done].
  apply eq_None_not_Some. intros (r' & Hr' & Hne & _)%Honly.
  by apply list_elem_of_singleton in Hr'.
Defined.

(** ** The sample expenses *)

Lemma listing_nil db :
  order_by_date_desc_id_desc (filter (selects None None None) (rows db)) = []
  ↔ rows db = [].
Proof.
  rewrite (filter_all (selects None None None)) by done. split.
  - intros Hnil. apply Permutation_nil.
    by rewrite <- (order_by_permutation (rows db)), Hnil.
  - by intros ->.
Qed.

Lemma initialize_nonempty today db :
  rows db ≠ [] → initialize_db_with_sample_if_empty today db = (Ok (), db).
Proof.
  intros Hrows. unfold initialize_db_with_sample_if_empty, method_bind.
  rewrite fetch_expenses_eq.
  destruct (order_by_date_desc_id_desc _) as [| r l] eqn:Hl; [| done].
  by apply listing_nil in Hl.
Qed.

Lemma add_expense_keeps_rows a c d n db :
  rows db ≠ [] → rows (add_expense a c d n db).2 ≠ [].
Proof.
  intros Hrows. unfold add_expense. case_decide; [done |].
  simpl. by destruct (rows db).
Qed.

Lemma add_expense_Ok_rows a c d n db i db' :
  add_expense a c d n db = (Ok i, db') → rows db' ≠ [].
Proof. intros [_ ->]%add_expense_Ok. simpl. by destruct (rows db). Qed.

(** Seeding leaves the store as it was or leaves it with a record. *)
Lemma initialize_result today db :
  (initialize_db_with_sample_if_empty today db).2 = db
  ∨ rows (initialize_db_with_sample_if_empty today db).2 ≠ [].
Proof.
  unfold initialize_db_with_sample_if_empty, method_bind.
  rewrite fetch_expenses_eq.
  destruct (order_by_date_desc_id_desc _) as [| r l]; [| by left].
  destruct (add_expense (120 # 1) "Food" today (Some "Lunch") db)
    as [[i1 | e] db1] eqn:H1.
  2: { left. by apply add_expense_Raise in H1 as ->. }
  right. apply add_expense_Ok_rows in H1.
  pose proof (add_expense_keeps_rows (400 # 1) "Transport" today
                (Some "Monthly pass") db1 H1) as H2.
  destruct (add_expense (400 # 1) "Transport" today (Some "Monthly pass") db1)
    as [[i2 | e] db2]; [| done].
  pose proof (add_expense_keeps_rows (2500 # 1) "Rent" today
                (Some "September rent") db2 H2) as H3.
  by destruct (add_expense (2500 # 1) "Rent" today (Some "September rent") db2)
    as [[i3 | e] db3].
Qed.

(** X7. Seeding the sample expenses is done once: on a store that has a
    record the call returns without a change, and a second call leaves the
    store as the first one left it, also when the first one was cut short by
    an exception. *)
Theorem initialize_once today db :
  (rows db ≠ [] → initialize_db_with_sample_if_empty today db = (Ok (), db))
  ∧ (initialize_db_with_sample_if_empty today
       (initialize_db_with_sample_if_empty today db).2).2
    = (initialize_db_with_sample_if_empty today db).2.
Proof.
  split; [apply initialize_nonempty |].
  destruct (initialize_result today db) as [Hsame | Hrows].
  - by rewrite !Hsame.
  - by rewrite (initialize_nonempty today _ Hrows).
Qed.

Lemma initialize_once_witness :
  rows scenario ≠ []
  ∧ initialize_db_with_sample_if_empty "2025-09-01" scenario = (Ok (), scenario).
Proof.
  assert (rows scenario ≠ []) as Hne by done.
  split; [done |].
  by destruct (initialize_once "2025-09-01" scenario) as [Hnoop _]; apply Hnoop.
Defined.

(** X8. On a table without records that has room for three more ids, seeding
    creates the three sample expenses, dated today, with the three ids after
    the counter; the listing shows them newest id first. *)
Theorem initialize_empty today db :
  rows db = [] →
  0 ≤ seq db → seq db + 3 ≤ Sql.MAX_ROWID →
  ∃ db' l,
    initialize_db_with_sample_if_empty today db = (Ok (), db')
    ∧ rows db'
      = [mkExpense (seq db + 1) (120 # 1) "Food" today (Some "Lunch");
         mkExpense (seq db + 2) (400 # 1) "Transport" today
                   (Some "Monthly pass");
         mkExpense (seq db + 3) (2500 # 1) "Rent" today
                   (Some "September rent")]
    ∧ seq db' = seq db + 3
    ∧ fetch_expenses None None None db' = (Ok l, db')
    ∧ l = reverse (rows db').
Proof.
  intros Hnil Hseq Hroom.
  assert (∀ a c d n rs k, 0 ≤ k < Sql.MAX_ROWID →
            Forall (λ r, id r ≤ k) rs → NoDup (id <$> rs) →
            add_expense a c d n {| rows := rs; seq := k |}
            = (Ok (k + 1),
               {| rows := rs ++ [mkExpense (k + 1) a c d n]; seq := k + 1 |}))
    as Hadd.
  { intros a c d n rs k Hk Hle Hnd.
    by rewrite (add_expense_next a c d n {| rows := rs; seq := k |}). }
  destruct db as [rs sq]. simpl in *. subst rs.
  unfold initialize_db_with_sample_if_empty, method_bind.
  rewrite fetch_expenses_eq. simpl.
  rewrite Hadd by (first [lia | constructor]). simpl.
  rewrite Hadd; [| lia | repeat constructor; simpl; lia
                 | simpl; apply NoDup_singleton].
  simpl. rewrite Hadd; [| lia | repeat constructor; simpl; lia |].
  2: { simpl. apply NoDup_cons. split; [| apply NoDup_singleton].
       rewrite list_elem_of_singleton. lia. }
  simpl. replace (sq + 1 + 1) with (sq + 2) by lia.
  replace (sq + 2 + 1) with (sq + 3) by lia.
  do 2 eexists. split; [done |]. split; [done |]. split; [done |].
  split; [apply fetch_expenses_eq |]. simpl.
  rewrite (filter_all (selects None None None)) by done.
  symmetry. apply order_by_unique.
  - simpl. repeat (apply NoDup_cons; split;
                   [rewrite ?elem_of_cons, ?elem_of_nil; lia |]).
    apply NoDup_nil_2.
  - by rewrite reverse_Permutation.
  - unfold reverse. simpl.
    rewrite !StronglySorted_cons, !Forall_cons, !Forall_nil.
    repeat split; try apply SSorted_nil; right; simpl; (split; [done | lia]).
Qed.

Lemma initialize_empty_witness :
  ∃ db' l,
    initialize_db_with_sample_if_empty "2025-09-01" (create_table None)
    = (Ok (), db')
    ∧ db' = sample_expenses
    ∧ fetch_expenses None None None db' = (Ok l, db')
    ∧ id <$> l = [3; 2; 1].
Proof.
  destruct (initialize_empty "2025-09-01" (create_table None))
    as (db' & l & Hinit & Hrows & Hseq & Hl & Hrev);
    [done | done | by vm_compute |].
  exists db', l. split; [done |]. split; [| split; [done |]].
  - destruct db' as [rs sq]. simpl in *. by subst.
  - rewrite Hrev, Hrows. reflexivity.
Defined.

(** ** The exported file *)

Example format_2f_rounds :
  PyStr.format_2f (201 # 2) = "100.50" ∧ PyStr.format_2f (1 # 8) = "0.12"
  ∧ PyStr.format_2f (3 # 8) = "0.38" ∧ PyStr.format_2f (-1 # 1000) = "-0.00"
  ∧ PyStr.format_2f (-5 # 2) = "-2.50" ∧ PyStr.format_2f 0 = "0.00"
  ∧ PyStr.format_2f (1999 # 1000) = "2.00" ∧ PyStr.str (-12) = "-12"
  ∧ PyStr.str 0 = "0" ∧ PyStr.replace "," " " "a,b,,c" = "a b  c".
Proof. vm_compute. repeat split. Qed.

Lemma append_assoc (s t u : string) : (s +:+ t) +:+ u = s +:+ t +:+ u.
Proof.
  induction s as [| c s IH]; [done |]. by rewrite !append_cons, IH.
Qed.

Lemma append_nil_r (s : string) : s +:+ "" = s.
Proof.
  induction s as [| c s IH]; [done |]. by rewrite append_cons, IH.
Qed.

Lemma free_of_append c s t : free_of c (s +:+ t) = free_of c s && free_of c t.
Proof.
  induction s as [| a s IH]; [done |].
  rewrite append_cons. simpl. by rewrite IH, andb_assoc.
Qed.

Lemma split_free sep s : free_of sep s = true → PyStr.split sep s = [s].
Proof.
  induction s as [| c s IH]; [done |]. simpl.
  intros [Hc Hs]%andb_true_iff. apply negb_true_iff in Hc.
  by rewrite Hc, IH.
Qed.

Lemma split_append sep s t :
  free_of sep s = true →
  PyStr.split sep (s +:+ String sep t) = s :: PyStr.split sep t.
Proof.
  induction s as [| c s IH]; simpl.
  - intros _. rewrite ?append_nil_l. simpl. by rewrite Ascii.eqb_refl.
  - intros [Hc Hs]%andb_true_iff. apply negb_true_iff in Hc.
    rewrite ?append_cons. simpl. by rewrite Hc, IH.
Qed.

Lemma replace_free old new s :
  old ≠ new → free_of old (PyStr.replace old new s) = true.
Proof.
  intros Hne. induction s as [| c s IH]; [done |]. simpl. rewrite IH, andb_true_r.
  destruct (Ascii.eqb_spec c old) as [-> | Hc]; apply negb_true_iff.
  - apply Ascii.eqb_neq. congruence.
  - by apply Ascii.eqb_neq.
Qed.

Lemma free_of_replace c old new s :
  c ≠ new → free_of c s = true → free_of c (PyStr.replace old new s) = true.
Proof.
  intros Hne. induction s as [| a s IH]; [done |]. simpl.
  intros [Ha Hs]%andb_true_iff. rewrite IH, andb_true_r by done.
  destruct (Ascii.eqb a old); [| done].
  apply negb_true_iff, Ascii.eqb_neq. congruence.
Qed.

Lemma all_numeric_append s t :
  all_numeric (s +:+ t) = all_numeric s && all_numeric t.
Proof.
  induction s as [| a s IH]; [done |].
  rewrite append_cons. simpl. by rewrite IH, andb_assoc.
Qed.

Lemma all_numeric_free c s :
  numeric c = false → all_numeric s = true → free_of c s = true.
Proof.
  intros Hc. induction s as [| a s IH]; [done |]. simpl.
  intros [Ha Hs]%andb_true_iff. rewrite IH, andb_true_r by done.
  apply negb_true_iff, Ascii.eqb_neq. intros ->. congruence.
Qed.

Lemma all_numeric_uint d : all_numeric (NilEmpty.string_of_uint d) = true.
Proof. induction d; simpl; done. Qed.

Lemma all_numeric_digits n :
  all_numeric (NilZero.string_of_uint (N.to_uint n)) = true.
Proof.
  unfold NilZero.string_of_uint.
  destruct (N.to_uint n); first [done | apply all_numeric_uint].
Qed.

Lemma all_numeric_format_0d w z : all_numeric (Py.format_0d w z) = true.
Proof.
  assert (∀ k, all_numeric (Py.zeros k) = true) as Hzeros.
  { intros k. unfold Py.zeros. induction k as [| k IH]; [done |]. simpl.
    by rewrite IH. }
  unfold Py.format_0d. destruct (z <? 0).
  - by rewrite !all_numeric_append, Hzeros, all_numeric_digits.
  - by rewrite all_numeric_append, Hzeros, all_numeric_digits.
Qed.

Lemma all_numeric_str z : all_numeric (PyStr.str z) = true.
Proof.
  unfold PyStr.str. rewrite all_numeric_append, all_numeric_digits.
  by destruct (z <? 0).
Qed.

Lemma all_numeric_format_2f x : all_numeric (PyStr.format_2f x) = true.
Proof.
  unfold PyStr.format_2f.
  rewrite !all_numeric_append, all_numeric_digits, all_numeric_format_0d.
  by destruct (Qnum x <? 0).
Qed.

(** A line has five fields as long as the date has no comma: the commas of
    the category and of the note are gone, and the numbers have none. *)
Lemma csv_line_fields r :
  free_of "," (date r) = true → PyStr.split "," (csv_line r) = csv_fields r.
Proof.
  intros Hdate. unfold csv_line, csv_fields, PyStr.join. cbn [String.concat].
  rewrite !(append_cons "," "" _), !append_nil_l.
  rewrite split_append by (apply all_numeric_free; [done | apply all_numeric_str]).
  rewrite split_append
    by (apply all_numeric_free; [done | apply all_numeric_format_2f]).
  rewrite split_append by by apply replace_free.
  rewrite split_append by done.
  by rewrite split_free by by apply replace_free.
Qed.

Lemma csv_line_free_of_newline r :
  fits_a_line r = true → free_of "010" (csv_line r) = true.
Proof.
  unfold fits_a_line. rewrite !andb_true_iff. intros [[[_ Hd] Hc] Hn].
  unfold csv_line, PyStr.join. cbn [String.concat].
  rewrite !free_of_append. rewrite Hd.
  rewrite (all_numeric_free "010" (PyStr.str (id r)))
    by (done || apply all_numeric_str).
  rewrite (all_numeric_free "010" (PyStr.format_2f (amount r)))
    by (done || apply all_numeric_format_2f).
  by rewrite !free_of_replace.
Qed.

(** The file is the header and then the lines, each closed by a newline. *)
Lemma csv_fallback_lines rows :
  csv_fallback rows
  = csv_header +:+ newline
    +:+ foldr (λ r rest, csv_line r +:+ newline +:+ rest) "" rows.
Proof.
  unfold csv_fallback. rewrite <- append_assoc.
  generalize (csv_header +:+ newline) as f.
  induction rows as [| r rows IH]; intros f; simpl.
  - by rewrite append_nil_r.
  - by rewrite IH, !append_assoc.
Qed.

Lemma split_lines rows :
  Forall (λ r, fits_a_line r = true) rows →
  PyStr.split "010"
    (foldr (λ r rest, csv_line r +:+ newline +:+ rest) "" rows)
  = (csv_line <$> rows) ++ [""].
Proof.
  induction 1 as [| r rows Hr _ IH]; [done |]. simpl.
  unfold newline at 1. rewrite append_cons, append_nil_l.
  rewrite split_append by by apply csv_line_free_of_newline.
  by rewrite IH.
Qed.

Lemma csv_read_fallback rows :
  Forall (λ r, fits_a_line r = true) rows →
  csv_read (csv_fallback rows)
  = ["id"; "amount"; "category"; "date"; "note"]
    :: (csv_fields <$> rows) ++ [[""]].
Proof.
  intros Hfit. unfold csv_read. rewrite csv_fallback_lines.
  unfold newline at 1. rewrite append_cons, append_nil_l.
  rewrite split_append by done. rewrite split_lines by done.
  rewrite fmap_cons, fmap_app, <- list_fmap_compose. f_equal. f_equal.
  apply Forall_fmap_ext_1. apply (Forall_impl _ _ _ Hfit).
  intros r Hr. simpl. apply csv_line_fields.
  unfold fits_a_line in Hr. rewrite !andb_true_iff in Hr. tauto.
Qed.

(** X9.  Without pandas, a store that is not empty is exported to the chosen
    file as a header line and one line for each record, in the order of the
    listing, and all of them are reported as exported; the store is left as
    it is.  When no date holds a comma and no category, date or note holds a
    newline, the file read back line by line and field by field gives, for
    each record, its id, its amount rounded to two decimals, its category
    with spaces for commas, its date, and its note with spaces for commas, a
    missing note as the empty text; the last newline leaves one empty line
    at the end. *)
Theorem export_csv_fallback_readable db path :
  rows db ≠ [] → path ≠ "" →
  Forall (λ r, fits_a_line r = true) (rows db) →
  ∃ l content,
    fetch_expenses None None None db = (Ok l, db)
    ∧ export_csv None path false db
      = (Ok (Exported path content (length (rows db))), db)
    ∧ csv_read content
      = ["id"; "amount"; "category"; "date"; "note"]
        :: (csv_fields <$> l) ++ [[""]].
Proof.
  intros Hrows Hpath Hfit.
  set (l := order_by_date_desc_id_desc
              (filter (selects None None None) (rows db))).
  assert (l ≡ₚ rows db) as Hperm.
  { unfold l. rewrite (filter_all (selects None None None)) by done.
    apply order_by_permutation. }
  exists l, (csv_fallback l). split; [apply fetch_expenses_eq |]. split.
  - unfold export_csv, method_bind. rewrite fetch_expenses_eq. fold l.
    rewrite <- (Permutation_length Hperm).
    destruct l as [| r l']; [by apply Permutation_nil in Hperm |].
    apply String.eqb_neq in Hpath. by rewrite Hpath.
  - apply csv_read_fallback. by rewrite Hperm.
Qed.

Lemma export_csv_fallback_readable_witness :
  ∃ l content,
    fetch_expenses None None None scenario = (Ok l, scenario)
    ∧ export_csv None "out.csv" false scenario
      = (Ok (Exported "out.csv" content 3), scenario)
    ∧ csv_read content
      = [["id"; "amount"; "category"; "date"; "note"];
         ["2"; "20.00"; "A"; "2024-03-02"; ""];
         ["1"; "10.00"; "A"; "2024-03-01"; "lunch"];
         ["3"; "30.00"; "B"; "2024-02-28"; ""];
         [""]].
Proof.
  destruct (export_csv_fallback_readable scenario "out.csv")
    as (l & content & Hl & Hexport & Hread);
    [done | done | repeat constructor |].
  exists l, content. split; [done |]. split; [done |].
  rewrite Hread. rewrite fetch_expenses_eq in Hl.
  injection Hl as <-. reflexivity.
Defined.

(** ** The dates the forms accept *)

Example strptime_examples :
  datetime.strptime "2024-03-01" = Some (2024, 3, 1)
  ∧ datetime.strptime "2024-3-1" = Some (2024, 3, 1)
  ∧ datetime.strptime "2024-12- 5" = Some (2024, 12, 5)
  ∧ datetime.strptime "2024-02-29" = Some (2024, 2, 29)
  ∧ datetime.strptime "2023-02-29" = None
  ∧ datetime.strptime "1900-02-29" = None
  ∧ datetime.strptime "2000-02-29" = Some (2000, 2, 29)
  ∧ datetime.strptime "0000-01-01" = None
  ∧ datetime.strptime "2024-13-01" = None
  ∧ datetime.strptime "2024-01-32" = None
  ∧ datetime.strptime "2024-01-011" = None
  ∧ datetime.strptime "24-01-01" = None
  ∧ datetime.strptime "2024/01/01" = None
  ∧ datetime.strptime "2024-01-01 " = None
  ∧ datetime.strptime "" = None.
Proof. vm_compute. repeat split. Qed.

Ltac digit_cases x :=
  let H := fresh in
  assert (x = 0 ∨ x = 1 ∨ x = 2 ∨ x = 3 ∨ x = 4 ∨ x = 5 ∨ x = 6 ∨ x = 7
          ∨ x = 8 ∨ x = 9) as H by lia;
  destruct H as [-> | [-> | [-> | [-> | [-> | [-> | [-> | [-> | [-> | ->]]]]]]]]];
  try lia.

Lemma class_spec lo hi c x :
  0 ≤ lo → hi ≤ 9 →
  datetime.class lo hi c = Some x ↔ lo ≤ x ≤ hi ∧ c = chr x.
Proof.
  intros Hlo Hhi. unfold datetime.class, chr. split.
  - destruct (_ && _) eqn:Hin; [| done]. intros [= <-].
    apply andb_true_iff in Hin as [?%Z.leb_le ?%Z.leb_le]. split; [lia |].
    replace (Z.of_N (N_of_ascii c) - 48 + 48) with (Z.of_N (N_of_ascii c))
      by lia.
    by rewrite N2Z.id, ascii_N_embedding.
  - intros [Hx ->]. rewrite N_ascii_embedding by lia.
    rewrite Z2N.id by lia. replace (x + 48 - 48) with x by lia.
    by rewrite (proj2 (Z.leb_le lo x)), (proj2 (Z.leb_le x hi)) by lia.
Qed.

Lemma one_spec lo hi s x rest :
  0 ≤ lo → hi ≤ 9 →
  (x, rest) ∈ datetime.one lo hi s ↔ lo ≤ x ≤ hi ∧ s = String (chr x) rest.
Proof.
  intros Hlo Hhi. unfold datetime.one. destruct s as [| a s].
  - rewrite elem_of_nil. intuition congruence.
  - destruct (datetime.class lo hi a) as [v |] eqn:Ha.
    + apply class_spec in Ha as [Hv ->]; [| done..].
      rewrite list_elem_of_singleton. split.
      * by intros [= -> ->].
      * intros [Hx [= Heq ->]]. f_equal.
        apply (f_equal N_of_ascii) in Heq. unfold chr in Heq.
        rewrite !N_ascii_embedding in Heq by lia. lia.
    + rewrite elem_of_nil. split; [done |]. intros [Hx [= -> ->]].
      by rewrite (proj2 (class_spec lo hi (chr x) x Hlo Hhi)) in Ha.
Qed.

Lemma two_spec lo1 hi1 lo2 hi2 s v rest :
  0 ≤ lo1 → hi1 ≤ 9 → 0 ≤ lo2 → hi2 ≤ 9 →
  (v, rest) ∈ datetime.two lo1 hi1 lo2 hi2 s
  ↔ ∃ x y, lo1 ≤ x ≤ hi1 ∧ lo2 ≤ y ≤ hi2 ∧ v = 10 * x + y
           ∧ s = String (chr x) (String (chr y) rest).
Proof.
  intros Hlo1 Hhi1 Hlo2 Hhi2. unfold datetime.two.
  assert (∀ x y, 0 ≤ x ≤ 9 → chr x = chr y → 0 ≤ y ≤ 9 → x = y) as Hinj.
  { intros x y Hx Heq Hy. apply (f_equal N_of_ascii) in Heq. unfold chr in Heq.
    rewrite !N_ascii_embedding in Heq by lia. lia. }
  destruct s as [| a [| b s]].
  - rewrite elem_of_nil. split; [done |]. by intros (? & ? & ? & ? & ? & ?).
  - rewrite elem_of_nil. split; [done |]. by intros (? & ? & ? & ? & ? & ?).
  - destruct (datetime.class lo1 hi1 a) as [x |] eqn:Ha.
    + apply class_spec in Ha as [Hx ->]; [| done..].
      destruct (datetime.class lo2 hi2 b) as [y |] eqn:Hb.
      * apply class_spec in Hb as [Hy ->]; [| done..].
        rewrite list_elem_of_singleton. split.
        -- intros [= -> ->]. by exists x, y.
        -- intros (x' & y' & Hx' & Hy' & -> & [= Hxx Hyy ->]).
           apply Hinj in Hxx; [| lia..]. apply Hinj in Hyy; [| lia..].
           by subst.
      * rewrite elem_of_nil. split; [done |].
        intros (x' & y' & Hx' & Hy' & -> & [= Hxx -> ->]).
        by rewrite (proj2 (class_spec lo2 hi2 (chr y') y' Hlo2 Hhi2)) in Hb.
    + rewrite elem_of_nil. split; [done |].
      intros (x' & y' & Hx' & Hy' & -> & [= -> -> ->]).
      by rewrite (proj2 (class_spec lo1 hi1 (chr x') x' Hlo1 Hhi1)) in Ha.
Qed.

Lemma literal_spec c s rest : rest ∈ datetime.literal c s ↔ s = String c rest.
Proof.
  unfold datetime.literal. destruct s as [| a s].
  - rewrite elem_of_nil. intuition congruence.
  - destruct (Ascii.eqb_spec a c) as [-> | Hne].
    + rewrite list_elem_of_singleton. intuition congruence.
    + rewrite elem_of_nil. intuition congruence.
Qed.

(** The four digits of a year are the year as the summary writes it. *)
Lemma four_chr a b c e :
  0 ≤ a ≤ 9 → 0 ≤ b ≤ 9 → 0 ≤ c ≤ 9 → 0 ≤ e ≤ 9 →
  Py.format_0d 4 (100 * (10 * a + b) + (10 * c + e))
  = String (chr a) (String (chr b) (String (chr c) (String (chr e) ""))).
Proof.
  intros Ha Hb Hc He.
  assert (Forall (λ a, Forall (λ b, Forall (λ c, Forall (λ e,
            Py.format_0d 4 (100 * (10 * a + b) + (10 * c + e))
            = String (chr a) (String (chr b) (String (chr c)
                (String (chr e) ""))))
            (seqZ 0 10)) (seqZ 0 10)) (seqZ 0 10)) (seqZ 0 10)) as Hall.
  { apply (bool_decide_unpack _). by vm_compute. }
  rewrite Forall_forall in Hall. specialize (Hall a).
  rewrite elem_of_seqZ, Forall_forall in Hall. specialize (Hall ltac:(lia) b).
  rewrite elem_of_seqZ, Forall_forall in Hall. specialize (Hall ltac:(lia) c).
  rewrite elem_of_seqZ, Forall_forall in Hall. specialize (Hall ltac:(lia) e).
  rewrite elem_of_seqZ in Hall. apply Hall. lia.
Qed.

Lemma Y_spec y s rest :
  (y, rest) ∈ datetime.Y s ↔ 0 ≤ y ≤ 9999 ∧ s = Py.format_0d 4 y +:+ rest.
Proof.
  unfold datetime.Y. rewrite list_elem_of_bind. split.
  - intros ([high s1] & Hin & Hhigh). apply list_elem_of_bind in Hin.
    destruct Hin as ([low s2] & Hin & Hlow).
    apply list_elem_of_singleton in Hin as [= -> ->].
    apply two_spec in Hhigh as (a & b & Ha & Hb & -> & ->); [| lia..].
    apply two_spec in Hlow as (c & e & Hc & He & -> & ->); [| lia..].
    split; [lia |]. by rewrite four_chr.
  - intros [Hy ->].
    assert (∃ a b c e, 0 ≤ a ≤ 9 ∧ 0 ≤ b ≤ 9 ∧ 0 ≤ c ≤ 9 ∧ 0 ≤ e ≤ 9
                       ∧ y = 100 * (10 * a + b) + (10 * c + e))
      as (a & b & c & e & Ha & Hb & Hc & He & ->).
    { exists (y / 1000), (y / 100 mod 10), (y / 10 mod 10), (y mod 10).
      Z.to_euclidean_division_equations. lia. }
    rewrite four_chr by done.
    exists (10 * a + b, String (chr c) (String (chr e) rest)). split.
    + apply list_elem_of_bind. exists (10 * c + e, rest). split.
      * by apply list_elem_of_singleton.
      * apply two_spec; [lia.. |]. by exists c, e.
    + apply two_spec; [lia.. |]. by exists a, b.
Qed.

Lemma m_spec month s rest :
  (month, rest) ∈ datetime.m s →
  1 ≤ month ≤ 12 ∧ ∃ ms, ms ∈ month_texts month ∧ s = ms +:+ rest.
Proof.
  unfold datetime.m. rewrite !elem_of_app.
  intros [Hin | [Hin | Hin]].
  - apply two_spec in Hin as (x & y & Hx & Hy & -> & ->); [| lia..].
    split; [lia |]. exists (String (chr x) (String (chr y) "")).
    split; [| done]. digit_cases x; digit_cases y; by vm_compute; left.
  - apply two_spec in Hin as (x & y & Hx & Hy & -> & ->); [| lia..].
    split; [lia |]. exists (String (chr x) (String (chr y) "")).
    split; [| done]. digit_cases x; digit_cases y; by vm_compute; left.
  - apply one_spec in Hin as [Hx ->]; [| lia..].
    split; [lia |]. exists (String (chr month) "").
    split; [| done]. digit_cases month; vm_compute; right; left.
Qed.

Lemma d_spec day s rest :
  (day, rest) ∈ datetime.d s →
  1 ≤ day ≤ 31 ∧ ∃ ds, ds ∈ day_texts day ∧ s = ds +:+ rest.
Proof.
  unfold datetime.d. rewrite !elem_of_app.
  intros [Hin | [Hin | [Hin | [Hin | Hin]]]].
  - apply two_spec in Hin as (x & y & Hx & Hy & -> & ->); [| lia..].
    split; [lia |]. exists (String (chr x) (String (chr y) "")).
    split; [| done]. digit_cases x; digit_cases y; by vm_compute; left.
  - apply two_spec in Hin as (x & y & Hx & Hy & -> & ->); [| lia..].
    split; [lia |]. exists (String (chr x) (String (chr y) "")).
    split; [| done]. digit_cases x; digit_cases y; by vm_compute; left.
  - apply two_spec in Hin as (x & y & Hx & Hy & -> & ->); [| lia..].
    split; [lia |]. exists (String (chr x) (String (chr y) "")).
    split; [| done]. digit_cases x; digit_cases y; by vm_compute; left.
  - apply one_spec in Hin as [Hx ->]; [| lia..].
    split; [lia |]. exists (String (chr day) "").
    split; [| done]. digit_cases day; vm_compute; right; left.
  - apply list_elem_of_bind in Hin as (s' & Hin & ->%literal_spec).
    apply one_spec in Hin as [Hx ->]; [| lia..].
    split; [lia |]. exists (String " " (String (chr day) "")).
    split; [| done]. digit_cases day; vm_compute; right; right; left.
Qed.

(** Every way of writing a month and a day is read back as that month and
    that day, with no text left. *)
Lemma dash_m_dash_d_texts month day ms ds :
  1 ≤ month ≤ 12 → 1 ≤ day ≤ 31 →
  ms ∈ month_texts month → ds ∈ day_texts day →
  head (datetime.dash_m_dash_d ("-" +:+ ms +:+ "-" +:+ ds))
  = Some (month, day, "").
Proof.
  intros Hmonth Hday Hms Hds.
  assert (Forall (λ month, Forall (λ day, Forall (λ ms, Forall (λ ds,
            head (datetime.dash_m_dash_d ("-" +:+ ms +:+ "-" +:+ ds))
            = Some (month, day, ""))
            (day_texts day)) (month_texts month)) (seqZ 1 31)) (seqZ 1 12))
    as Hall.
  { apply (bool_decide_unpack _). by vm_compute. }
  rewrite Forall_forall in Hall. specialize (Hall month).
  rewrite elem_of_seqZ, Forall_forall in Hall.
  specialize (Hall ltac:(lia) day).
  rewrite elem_of_seqZ, Forall_forall in Hall.
  specialize (Hall ltac:(lia) ms Hms). rewrite Forall_forall in Hall.
  by apply Hall.
Qed.

Lemma format_regex_year year rest :
  0 ≤ year ≤ 9999 →
  datetime.format_regex (Py.format_0d 4 year +:+ rest)
  = (λ '(month, day, s), (year, month, day, s))
    <$> datetime.dash_m_dash_d rest.
Proof.
  intros Hyear. unfold datetime.format_regex.
  assert (datetime.Y (Py.format_0d 4 year +:+ rest) = [(year, rest)]) as ->.
  { assert ((year, rest) ∈ datetime.Y (Py.format_0d 4 year +:+ rest)) as Hin
      by by apply Y_spec.
    unfold datetime.Y in *.
    destruct (datetime.two 0 9 0 9 (Py.format_0d 4 year +:+ rest))
      as [| [high s1] l1] eqn:H1; [by apply elem_of_nil in Hin |].
    assert (l1 = []) as ->.
    { unfold datetime.two in H1. repeat case_match; by simplify_eq. }
    simpl in *. rewrite app_nil_r in *.
    destruct (datetime.two 0 9 0 9 s1) as [| [low s2] l2] eqn:H2;
      [by apply elem_of_nil in Hin |].
    assert (l2 = []) as ->.
    { unfold datetime.two in H2. repeat case_match; by simplify_eq. }
    simpl in *. by apply list_elem_of_singleton in Hin as <-. }
  simpl. rewrite app_nil_r.
  induction (datetime.dash_m_dash_d rest) as [| [[month day] s] l IH];
    [done |].
  simpl. f_equal. apply IH.
Qed.

(** What passes the check is written in one of these ways. *)
Lemma validate_date_passes date_text :
  validate_date date_text = true →
  ∃ year month day ms ds,
    datetime.valid_date year month day = true
    ∧ ms ∈ month_texts month ∧ ds ∈ day_texts day
    ∧ date_text = Py.format_0d 4 year +:+ "-" +:+ ms +:+ "-" +:+ ds.
Proof.
  unfold validate_date, datetime.strptime.
  destruct (head (datetime.format_regex date_text))
    as [[[[year month] day] rest] |] eqn:Hhead; [| done].
  destruct (String.eqb_spec rest "") as [-> | Hrest]; [| done]. simpl.
  destruct (datetime.valid_date year month day) eqn:Hvalid; [| done].
  intros _. apply head_Some_elem_of in Hhead.
  unfold datetime.format_regex in Hhead.
  apply list_elem_of_bind in Hhead as ([y s1] & Hin & [Hy ->]%Y_spec).
  apply list_elem_of_bind in Hin as ([[mo dy] s2] & Hin & Hmd).
  apply list_elem_of_singleton in Hin. simplify_eq.
  unfold datetime.dash_m_dash_d in Hmd.
  apply list_elem_of_bind in Hmd as (t1 & Hmd & ->%literal_spec).
  apply list_elem_of_bind in Hmd as ([mo' t2] & Hmd & Hm).
  apply m_spec in Hm as (_ & ms & Hms & ->).
  apply list_elem_of_bind in Hmd as (t3 & Hmd & Hdash).
  apply literal_spec in Hdash as ->.
  apply list_elem_of_bind in Hmd as ([dy' t4] & Hmd & Hd).
  apply list_elem_of_singleton in Hmd. simplify_eq.
  apply d_spec in Hd as (_ & ds & Hds & ->).
  exists y, mo', dy', ms, ds. repeat split; [done.. |].
  by rewrite append_nil_r, !(append_cons "-" "" _), !append_nil_l.
Qed.

(** A date written in one of these ways is read as that date. *)
Lemma strptime_texts year month day ms ds :
  datetime.valid_date year month day = true →
  ms ∈ month_texts month → ds ∈ day_texts day →
  datetime.strptime (Py.format_0d 4 year +:+ "-" +:+ ms +:+ "-" +:+ ds)
  = Some (year, month, day).
Proof.
  intros Hvalid Hms Hds. unfold datetime.strptime.
  assert (1 ≤ year ≤ 9999 ∧ 1 ≤ month ≤ 12 ∧ 1 ≤ day ≤ 31)
    as (Hyear & Hmonth & Hday).
  { unfold datetime.valid_date, datetime.days_in_month in Hvalid.
    repeat case_match; lia. }
  rewrite format_regex_year by lia.
  pose proof (dash_m_dash_d_texts month day ms ds Hmonth Hday Hms Hds)
    as Hhead.
  destruct (datetime.dash_m_dash_d ("-" +:+ ms +:+ "-" +:+ ds))
    as [| x l]; [done |].
  simpl in Hhead. injection Hhead as ->. simpl. by rewrite Hvalid.
Qed.

Lemma validate_date_texts year month day ms ds :
  datetime.valid_date year month day = true →
  ms ∈ month_texts month → ds ∈ day_texts day →
  validate_date (Py.format_0d 4 year +:+ "-" +:+ ms +:+ "-" +:+ ds) = true.
Proof.
  intros Hvalid Hms Hds. unfold validate_date.
  by rewrite (strptime_texts year month day).
Qed.

(** X10.  Of the texts made of characters up to 255, the date check of the
    forms passes exactly those that are a year of four digits from 0001 to
    9999, a dash, a month, a dash and a day of that month in that year, where
    the month may be written with one or two digits and the day with one or
    two digits or, below ten, with a space in front: besides the ISO dates
    [YYYY-MM-DD] it passes texts such as [2024-3-1] and [2024-12- 5].  (A
    text with digits of another script is outside these texts.) *)
Theorem validate_date_spec date_text :
  validate_date date_text = true
  ↔ ∃ year month day ms ds,
      datetime.valid_date year month day = true
      ∧ ms ∈ month_texts month ∧ ds ∈ day_texts day
      ∧ date_text = Py.format_0d 4 year +:+ "-" +:+ ms +:+ "-" +:+ ds.
Proof.
  split; [apply validate_date_passes |].
  intros (year & month & day & ms & ds & Hvalid & Hms & Hds & ->).
  by apply (validate_date_texts year month day).
Qed.

(** ** White space around the text of a field *)

Lemma lstrip_blank s : blank s = true → PyStr.lstrip s = "".
Proof.
  induction s as [| c s IH]; [done |]. simpl.
  intros [Hc Hs]%andb_true_iff. by rewrite Hc, IH.
Qed.

Lemma rstrip_blank s : blank s = true → PyStr.rstrip s = "".
Proof.
  induction s as [| c s IH]; [done |]. simpl.
  intros [Hc Hs]%andb_true_iff. by rewrite IH, Hc.
Qed.

Lemma lstrip_app s w :
  PyStr.lstrip (s +:+ w)
  = if blank s then PyStr.lstrip w else PyStr.lstrip s +:+ w.
Proof.
  induction s as [| c s IH]; [by rewrite append_nil_l |].
  rewrite append_cons. simpl. destruct (PyStr.isspace c); [apply IH | done].
Qed.

Lemma rstrip_app_blank s w :
  blank w = true → PyStr.rstrip (s +:+ w) = PyStr.rstrip s.
Proof.
  intros Hw. induction s as [| c s IH].
  - rewrite append_nil_l. by apply rstrip_blank.
  - rewrite append_cons. simpl. by rewrite IH.
Qed.

Lemma strip_blank s : blank s = true → PyStr.strip s = "".
Proof. intros Hs. unfold PyStr.strip. by rewrite lstrip_blank. Qed.

(** White space before and after a text does not count. *)
Lemma strip_pad before s after :
  blank before = true → blank after = true →
  PyStr.strip (before +:+ s +:+ after) = PyStr.strip s.
Proof.
  intros Hbefore Hafter. unfold PyStr.strip.
  rewrite (lstrip_app before), Hbefore, (lstrip_app s).
  destruct (blank s) eqn:Hs.
  - by rewrite (lstrip_blank after), (lstrip_blank s).
  - by apply rstrip_app_blank.
Qed.

(** ** The list of the main window *)

Lemma load_expenses_eq search_var db :
  load_expenses search_var db
  = (Ok {| tree := (λ r, (id r, PyStr.format_2f (amount r), category r,
                          date r, note r))
                   <$> order_by_date_desc_id_desc
                         (filter (selects (Some (PyStr.strip search_var))
                                          None None) (rows db));
           loaded := length (order_by_date_desc_id_desc
                       (filter (selects (Some (PyStr.strip search_var))
                                        None None) (rows db)));
           shown_total := sum_amounts
                      (amount <$> order_by_date_desc_id_desc
                         (filter (selects (Some (PyStr.strip search_var))
                                          None None) (rows db))) |}, db).
Proof.
  unfold load_expenses, method_bind. rewrite fetch_expenses_eq.
  unfold method_ret. do 3 f_equal. unfold sum_amounts.
  generalize 0%Q as a.
  induction (order_by_date_desc_id_desc _) as [| r l IH]; [done |].
  intros a. simpl. apply IH.
Qed.

Lemma load_expenses_store search_var db : (load_expenses search_var db).2 = db.
Proof. by rewrite load_expenses_eq. Qed.

(** X11.  The list of the main window shows what the store finds for the
    text of the search box without the white space around it, one line for
    each record found, with their number and the sum of their amounts in the
    status bar; the store is not changed.  White space before and after the
    text makes no difference, and a box that holds white space only shows
    every record of the store. *)
Theorem load_expenses_search db search_var :
  ∃ l shown,
    fetch_expenses (Some (PyStr.strip search_var)) None None db = (Ok l, db)
    ∧ load_expenses search_var db = (Ok shown, db)
    ∧ tree shown
      = (λ r, (id r, PyStr.format_2f (amount r), category r, date r, note r))
        <$> l
    ∧ loaded shown = length l
    ∧ shown_total shown = sum_amounts (amount <$> l)
    ∧ (∀ before after, blank before = true → blank after = true →
         load_expenses (before +:+ search_var +:+ after) db
         = load_expenses search_var db)
    ∧ (blank search_var = true → l ≡ₚ rows db).
Proof.
  do 2 eexists. split; [apply fetch_expenses_eq |].
  split; [apply load_expenses_eq |]. simpl. repeat split.
  - intros before after Hbefore Hafter.
    by rewrite !load_expenses_eq, strip_pad.
  - intros Hblank. rewrite strip_blank by done.
    rewrite (filter_all (selects (Some "") None None)) by done.
    apply order_by_permutation.
Qed.

(** ** The form of the main window *)

(** The form with fields that pass its checks is the create of the store
    followed by the loading of the list. *)
Lemma form_add_expense_passes float amount_var category_var date_var note_var
    search_var a db :
  PyStr.strip amount_var ≠ "" →
  float (PyStr.strip amount_var) = Some a →
  PyStr.strip category_var ≠ "" →
  validate_date (PyStr.strip date_var) = true →
  form_add_expense float amount_var category_var date_var note_var search_var
    db
  = method_bind
      (add_expense a (PyStr.strip category_var) (PyStr.strip date_var)
         (Some (PyStr.strip note_var))) (λ eid,
    method_bind (load_expenses search_var) (λ shown,
    method_ret (Added eid shown))) db.
Proof.
  intros Hamt Hfloat Hcat Hdate. unfold form_add_expense.
  apply String.eqb_neq in Hamt, Hcat. by rewrite Hamt, Hfloat, Hcat, Hdate.
Qed.

(** What the form does is one of two things. *)
Lemma form_add_expense_cases float amount_var category_var date_var note_var
    search_var db :
  (∃ title message,
     form_add_expense float amount_var category_var date_var note_var
       search_var db
     = (Ok (showwarning title message), db)
     ∧ (PyStr.strip amount_var = "" ∨ float (PyStr.strip amount_var) = None
        ∨ PyStr.strip category_var = ""
        ∨ validate_date (PyStr.strip date_var) = false))
  ∨ (∃ a,
       PyStr.strip amount_var ≠ "" ∧ float (PyStr.strip amount_var) = Some a
       ∧ PyStr.strip category_var ≠ ""
       ∧ validate_date (PyStr.strip date_var) = true).
Proof.
  unfold form_add_expense.
  destruct (String.eqb_spec (PyStr.strip amount_var) "") as [Hamt | Hamt];
    [left; eauto 10 |].
  destruct (float (PyStr.strip amount_var)) as [a |] eqn:Hfloat;
    [| left; eauto 10].
  destruct (String.eqb_spec (PyStr.strip category_var) "") as [Hcat | Hcat];
    [left; eauto 10 |].
  destruct (validate_date (PyStr.strip date_var)) eqn:Hdate;
    [| left; simpl; eauto 10].
  right. by exists a.
Qed.

(** X12.  The form of the main window changes the store only by one create:
    when the call ends in [Added], the store has one record more, which
    holds the number read from the amount field and the texts of the other
    fields without the white space around them; its category is not empty,
    its date passes the date check, its note is a text (never NULL) and its
    id is above every id of the store.  With an empty search box the line of
    the new record is on the list that is shown.  In every other case the
    store is left as it was. *)
Theorem form_add_expense_stores float amount_var category_var date_var
    note_var search_var db out db' :
  form_add_expense float amount_var category_var date_var note_var search_var
    db = (out, db') →
  (∃ eid shown a,
     out = Ok (Added eid shown)
     ∧ float (PyStr.strip amount_var) = Some a
     ∧ rows db'
       = rows db ++ [mkExpense eid a (PyStr.strip category_var)
                       (PyStr.strip date_var) (Some (PyStr.strip note_var))]
     ∧ PyStr.strip category_var ≠ ""
     ∧ validate_date (PyStr.strip date_var) = true
     ∧ Forall (λ r, id r < eid) (rows db)
     ∧ (blank search_var = true →
        (eid, PyStr.format_2f a, PyStr.strip category_var,
         PyStr.strip date_var, Some (PyStr.strip note_var)) ∈ tree shown))
  ∨ (db' = db ∧ ∀ eid shown, out ≠ Ok (Added eid shown)).
Proof.
  intros Hform.
  destruct (form_add_expense_cases float amount_var category_var date_var
              note_var search_var db)
    as [(title & message & Hwarn & _) | (a & Hamt & Hfloat & Hcat & Hdate)].
  { right. rewrite Hwarn in Hform. by simplify_eq. }
  rewrite (form_add_expense_passes _ _ _ _ _ _ a) in Hform by done.
  unfold method_bind in Hform.
  destruct (add_expense a _ _ _ db) as [[eid | e] db1] eqn:Hadd.
  - rewrite load_expenses_eq in Hform. unfold method_ret in Hform.
    injection Hform as <- <-. left. do 2 eexists. exists a.
    split; [done |]. split; [done |].
    pose proof (add_expense_Ok _ _ _ _ _ _ _ Hadd) as [Heid ->].
    split; [done |]. split; [done |]. split; [done |]. split.
    + apply Forall_forall. intros r Hr.
      assert (id r ≤ max_rowid (rows db)) as Hmax.
      { clear -Hr. unfold max_rowid.
        induction (rows db) as [| r' rs IH]; [by apply elem_of_nil in Hr |].
        rewrite fmap_cons. cbn [foldr].
        apply elem_of_cons in Hr as [-> | Hr]; [lia |].
        specialize (IH Hr). lia. }
      unfold largest_rowid_ever in Heid. lia.
    + intros Hblank. cbn [tree]. rewrite (strip_blank search_var) by done.
      rewrite (filter_all (selects (Some "") None None)) by done.
      apply (list_elem_of_fmap_2
               (λ r, (id r, PyStr.format_2f (amount r), category r, date r,
                      note r))
               _ (mkExpense eid a _ _ _)).
      rewrite order_by_permutation. apply elem_of_app. right.
      apply list_elem_of_singleton. done.
  - right. apply add_expense_Raise in Hadd as ->.
    by injection Hform as <- <-.
Qed.

Lemma form_add_expense_stores_witness :
  ∃ shown,
    form_add_expense (λ s, if String.eqb s "250.50" then Some (501 # 2)%Q
                           else None)
      " 250.50" "Food " "2024-03-05" " dinner " "" scenario
    = (Ok (Added 4 shown),
       {| rows := rows scenario
                  ++ [mkExpense 4 (501 # 2) "Food" "2024-03-05"
                        (Some "dinner")];
          seq := 4 |})
    ∧ (4, "250.50", "Food", "2024-03-05", Some "dinner") ∈ tree shown.
Proof.
  eexists. split; [reflexivity |].
  destruct (form_add_expense_stores
              (λ s, if String.eqb s "250.50" then Some (501 # 2)%Q else None)
              " 250.50" "Food " "2024-03-05" " dinner " "" scenario _ _
              eq_refl)
    as [(eid & shown & a & Hout & Hfloat & _ & _ & _ & _ & Hshown)
       | [_ Hnot]].
  - injection Hout as <- <-. injection Hfloat as <-. by apply Hshown.
  - by destruct (Hnot _ _ eq_refl).
Defined.

(** X13.  The form takes a date written with a one-digit month, such as
    [2024-9-5], and the monthly summary then does not count the record: after
    the record is added, the summary of the month of its date is what it was
    before. *)
Theorem unpadded_date_accepted_not_counted float amount_var category_var
    date_var note_var search_var db a year month day ds :
  PyStr.strip amount_var ≠ "" →
  float (PyStr.strip amount_var) = Some a →
  PyStr.strip category_var ≠ "" →
  datetime.valid_date year month day = true →
  year ≤ 9998 → month ≤ 9 →
  ds ∈ day_texts day →
  PyStr.strip date_var = unpadded_date year month ds →
  largest_rowid_ever db ≠ Sql.MAX_ROWID →
  ∃ eid shown db' summary,
    form_add_expense float amount_var category_var date_var note_var
      search_var db
    = (Ok (Added eid shown), db')
    ∧ rows db'
      = rows db ++ [mkExpense eid a (PyStr.strip category_var)
                      (unpadded_date year month ds)
                      (Some (PyStr.strip note_var))]
    ∧ monthly_summary year month db = (Ok summary, db)
    ∧ monthly_summary year month db' = (Ok summary, db').
Proof.
  intros Hamt Hfloat Hcat Hvalid Hyear Hmonth Hds Hdate Hroom.
  assert (1 ≤ year ∧ 1 ≤ month) as [Hyear1 Hmonth1].
  { unfold datetime.valid_date in Hvalid. repeat case_match; lia. }
  assert (validate_date (PyStr.strip date_var) = true) as Hpass.
  { rewrite Hdate. apply (validate_date_texts year month day); [done | | done].
    unfold month_texts. apply elem_of_cons. right. apply elem_of_cons. by left. }
  rewrite (form_add_expense_passes _ _ _ _ _ _ a) by done.
  unfold method_bind, add_expense. rewrite decide_False by done.
  rewrite load_expenses_eq. unfold method_ret. rewrite Hdate.
  do 4 eexists. split; [done |]. split; [done |].
  split; [apply monthly_summary_eq |].
  rewrite monthly_summary_eq. simpl. do 3 f_equal.
  rewrite filter_app, filter_cons_False, filter_nil, app_nil_r; [done |].
  intros Hin.
  pose proof (in_month_unpadded year month ds (mkExpense
                (largest_rowid_ever db + 1) a (PyStr.strip category_var)
                (unpadded_date year month ds) (Some (PyStr.strip note_var)))
                month eq_refl ltac:(lia) ltac:(lia) ltac:(lia)) as Hiff.
  apply Hiff in Hin. lia.
Qed.

Lemma unpadded_date_accepted_not_counted_witness :
  ∃ eid shown db' summary,
    form_add_expense (λ s, if String.eqb s "99" then Some (99 # 1)%Q
                           else None)
      "99" "A" "2024-3-5" "" "" scenario
    = (Ok (Added eid shown), db')
    ∧ rows db'
      = rows scenario ++ [mkExpense eid (99 # 1) "A" "2024-3-5" (Some "")]
    ∧ monthly_summary 2024 3 scenario = (Ok summary, scenario)
    ∧ monthly_summary 2024 3 db' = (Ok summary, db').
Proof.
  apply (unpadded_date_accepted_not_counted
           (λ s, if String.eqb s "99" then Some (99 # 1)%Q else None)
           "99" "A" "2024-3-5" "" "" scenario (99 # 1)%Q 2024 3 5 "5");
    first [done | lia | by vm_compute
          | apply elem_of_cons; right; apply elem_of_cons; by left].
Defined.

(** ** The edit window *)

Lemma save_passes float eid amount_var category_var date_var note_var
    search_var a db :
  PyStr.strip amount_var ≠ "" →
  float (PyStr.strip amount_var) = Some a →
  validate_date (PyStr.strip date_var) = true →
  save float eid amount_var category_var date_var note_var search_var db
  = method_bind
      (update_expense eid a (PyStr.strip category_var) (PyStr.strip date_var)
         (Some (PyStr.strip note_var))) (λ _,
    method_bind (load_expenses search_var) (λ shown,
    method_ret (Saved eid shown))) db.
Proof.
  intros Hamt Hfloat Hdate. unfold save, validate_date in *.
  apply String.eqb_neq in Hamt. rewrite Hamt, Hfloat.
  by destruct (datetime.strptime (PyStr.strip date_var)).
Qed.

(** X14.  The edit window says that the expense is saved whenever the amount
    and the date pass its checks, also when the record it edits is no longer
    in the store (it was deleted in the main window while the edit window was
    open): then nothing is written and the store is as it was.  The id the
    window edits is the id of a line of the list, which fits in 64 bits. *)
Theorem save_of_a_deleted_record float eid amount_var category_var date_var
    note_var search_var a db :
  PyStr.strip amount_var ≠ "" →
  float (PyStr.strip amount_var) = Some a →
  validate_date (PyStr.strip date_var) = true →
  Py.int64 eid = true →
  eid ∉ id <$> rows db →
  ∃ shown,
    save float eid amount_var category_var date_var note_var search_var db
    = (Ok (Saved eid shown), db)
    ∧ load_expenses search_var db = (Ok shown, db).
Proof.
  intros Hamt Hfloat Hdate Hfits Hid.
  rewrite (save_passes _ _ _ _ _ _ _ a) by done. unfold method_bind.
  destruct (missing_id_no_op eid db Hfits Hid) as [-> _].
  rewrite load_expenses_eq. eexists. by split.
Qed.

Lemma save_of_a_deleted_record_witness :
  ∃ shown,
    save (λ s, if String.eqb s "12" then Some (12 # 1)%Q else None)
      7 "12" "Food" "2024-03-09" "" "" scenario
    = (Ok (Saved 7 shown), scenario)
    ∧ load_expenses "" scenario = (Ok shown, scenario).
Proof.
  apply (save_of_a_deleted_record
           (λ s, if String.eqb s "12" then Some (12 # 1)%Q else None)
           7 "12" "Food" "2024-03-09" "" "" (12 # 1)%Q scenario);
    first [done | by vm_compute | idtac].
  apply (bool_decide_unpack _). by vm_compute.
Defined.

(** X15.  The edit window does not ask for a category: with a category field
    that is empty or holds white space only, the fields that the form of the
    main window turns down with a warning are saved by the edit window, and
    the record of the store (its id fits in 64 bits, as the ids of a table
    do) then has the empty text as its category. *)
Theorem save_accepts_empty_category float eid amount_var category_var
    date_var note_var search_var a db :
  PyStr.strip amount_var ≠ "" →
  float (PyStr.strip amount_var) = Some a →
  validate_date (PyStr.strip date_var) = true →
  blank category_var = true →
  Py.int64 eid = true →
  eid ∈ id <$> rows db →
  ∃ shown db',
    save float eid amount_var category_var date_var note_var search_var db
    = (Ok (Saved eid shown), db')
    ∧ mkExpense eid a "" (PyStr.strip date_var) (Some (PyStr.strip note_var))
      ∈ rows db'
    ∧ form_add_expense float amount_var category_var date_var note_var
        search_var db
      = (Ok (showwarning "Validation" "Please select a category."), db).
Proof.
  intros Hamt Hfloat Hdate Hblank Hfits Hid.
  rewrite (save_passes _ _ _ _ _ _ _ a) by done.
  unfold method_bind. rewrite update_expense_int64 by done.
  rewrite load_expenses_eq.
  unfold method_ret. rewrite (strip_blank category_var) by done.
  do 2 eexists. split; [done |]. split.
  - simpl. apply list_elem_of_fmap in Hid as (r & -> & Hr).
    apply list_elem_of_fmap. exists r. split; [| done].
    by rewrite decide_True.
  - unfold form_add_expense. apply String.eqb_neq in Hamt.
    by rewrite Hamt, Hfloat, (strip_blank category_var).
Qed.

Lemma save_accepts_empty_category_witness :
  ∃ shown db',
    save (λ s, if String.eqb s "12" then Some (12 # 1)%Q else None)
      2 "12" "  " "2024-03-09" "" "" scenario
    = (Ok (Saved 2 shown), db')
    ∧ mkExpense 2 (12 # 1) "" "2024-03-09" (Some "") ∈ rows db'
    ∧ form_add_expense
        (λ s, if String.eqb s "12" then Some (12 # 1)%Q else None)
        "12" "  " "2024-03-09" "" "" scenario
      = (Ok (showwarning "Validation" "Please select a category."), scenario).
Proof.
  apply (save_accepts_empty_category
           (λ s, if String.eqb s "12" then Some (12 # 1)%Q else None)
           2 "12" "  " "2024-03-09" "" "" (12 # 1)%Q scenario);
    first [done | by vm_compute | idtac].
  apply elem_of_cons. right. apply elem_of_cons. by left.
Defined.

(** ** The report of a month *)



(** ** A session of the application *)

(** A handler leaves the store as it is or makes one write to it, with a
    date that has passed the check and a note that is a text. *)
Lemma handle_writes float pd e db :
  handle float pd e db = db
  ∨ (∃ a c d n, validate_date d = true
       ∧ handle float pd e db = (step (Create a c d (Some n)) db).2)
  ∨ (∃ i a c d n, validate_date d = true
       ∧ handle float pd e db = (step (Update i a c d (Some n)) db).2)
  ∨ (∃ i, handle float pd e db = (step (Delete i) db).2).
Proof.
  destruct e as [amount_var category_var date_var note_var search_var
                | search_var
                | selection askyesno search_var
                | eid amount_var category_var date_var note_var search_var
                | asked_path io_error
                | year month]; cbn [handle step].
  - destruct (form_add_expense_cases float amount_var category_var date_var
                note_var search_var db)
      as [(title & message & -> & _) | (a & Hamt & Hfloat & Hcat & Hdate)];
      [by left |].
    right. left.
    exists a, (PyStr.strip category_var), (PyStr.strip date_var),
      (PyStr.strip note_var).
    split; [exact Hdate |].
    rewrite (form_add_expense_passes _ _ _ _ _ _ a) by done.
    unfold method_bind. cbn [step].
    destruct (add_expense a _ _ _ db) as [[i | err] db1]; [| done].
    by rewrite load_expenses_eq.
  - left. apply load_expenses_store.
  - unfold delete_selected.
    destruct selection as [eid |]; [| by left].
    destruct askyesno; [| by left].
    right. right. right. exists eid. unfold method_bind.
    destruct (delete_expense eid db) as [[[] | err] db1]; [| done].
    by rewrite load_expenses_eq.
  - unfold save.
    destruct (String.eqb (PyStr.strip amount_var) ""); [by left |].
    destruct (float (PyStr.strip amount_var)) as [a |]; [| by left].
    destruct (datetime.strptime (PyStr.strip date_var)) eqn:Hdate;
      [| by left].
    right. right. left.
    exists eid, a, (PyStr.strip category_var), (PyStr.strip date_var),
      (PyStr.strip note_var).
    split.
    + unfold validate_date. by rewrite Hdate.
    + unfold method_bind.
      destruct (update_expense eid a _ _ _ db) as [[[] | err] db1]; [| done].
      by rewrite load_expenses_eq.
  - left. unfold export_csv, method_bind. rewrite fetch_expenses_eq.
    destruct (order_by_date_desc_id_desc _); [done |].
    destruct (String.eqb asked_path ""); [done |]. by destruct io_error.
  - left. unfold show_report, method_bind.
    destruct ((month <? 1) || (month >? 12)); [done |].
    rewrite monthly_summary_eq. by case_decide.
Qed.

Lemma from_a_form_handle float pd e db :
  Forall from_a_form (rows db) →
  Forall from_a_form (rows (handle float pd e db)).
Proof.
  intros Hrows.
  destruct (handle_writes float pd e db)
    as [-> | [(a & c & d & n & Hd & ->) | [(i & a & c & d & n & Hd & ->)
       | (i & ->)]]]; [done | | |]; simpl.
  - destruct (add_expense a c d (Some n) db) as [[j | err] db1] eqn:Hadd;
      simpl.
    + apply add_expense_Ok in Hadd as [_ ->]. simpl.
      apply Forall_app. split; [done |]. by repeat constructor.
    + by apply add_expense_Raise in Hadd as ->.
  - unfold update_expense. destruct (Py.int64 i); [| done]. simpl.
    apply Forall_fmap. apply (Forall_impl _ _ _ Hrows). intros r Hr. simpl.
    by case_decide.
  - unfold delete_expense. destruct (Py.int64 i); [| done]. simpl.
    apply Forall_forall. intros r [_ Hr]%list_elem_of_filter.
    by apply (proj1 (Forall_forall _ _) Hrows).
Qed.

Lemma consistent_handle float pd e db :
  consistent db → consistent (handle float pd e db).
Proof.
  intros Hdb.
  destruct (handle_writes float pd e db)
    as [-> | [(a & c & d & n & _ & ->) | [(i & a & c & d & n & _ & ->)
       | (i & ->)]]]; [done | by apply consistent_step..].
Qed.

(** X17.  Whatever the user does in the windows, from a database file that
    is new, or that holds distinct ids below its counter and records with a
    date that passes the date check and a note that is a text, the store has
    distinct ids below its counter, and every record of it has a date that
    passes the date check and a note that is a text and not NULL. *)
Theorem main_keeps_dates_checked float pd file events :
  match file with
  | Some db => consistent db ∧ Forall from_a_form (rows db)
  | None => True
  end →
  consistent (main float pd file events)
  ∧ Forall from_a_form (rows (main float pd file events)).
Proof.
  intros Hfile. unfold main. rewrite load_expenses_store.
  assert (consistent (create_table file)
          ∧ Forall from_a_form (rows (create_table file))) as Hstart.
  { destruct file as [db |]; [done |]. simpl. repeat split; constructor. }
  revert Hstart. generalize (create_table file). clear Hfile.
  induction events as [| e events IH]; intros db [Hdb Hrows]; [done |].
  simpl. apply IH. split.
  - by apply consistent_handle.
  - by apply from_a_form_handle.
Qed.

Lemma main_keeps_dates_checked_witness :
  consistent
    (main (λ s, if String.eqb s "12" then Some (12 # 1)%Q else None) None None
       [AddExpense "12" "Food" "2024-3-9" "" "";
        Save 1 " 12 " "" "2024-03-09" "tea" "";
        AddExpense "12" "Rent" "2024-03-32" "" "";
        DeleteSelected (Some 5) true ""])
  ∧ rows
      (main (λ s, if String.eqb s "12" then Some (12 # 1)%Q else None) None
         None
         [AddExpense "12" "Food" "2024-3-9" "" "";
          Save 1 " 12 " "" "2024-03-09" "tea" "";
          AddExpense "12" "Rent" "2024-03-32" "" "";
          DeleteSelected (Some 5) true ""])
    = [mkExpense 1 (12 # 1) "" "2024-03-09" (Some "tea")].
Proof.
  split; [| reflexivity].
  by apply (main_keeps_dates_checked
              (λ s, if String.eqb s "12" then Some (12 # 1)%Q else None)
              None None).
Defined.
